(** * SABlock: the self-attention block of lavis/models/blip_models/selfattention.py

    A shallow embedding of [SABlock.__init__] and [SABlock.forward].

    Conventions of the embedding:
    - Python [int] is [Z]; [%] and [//] are [Z.modulo] and [Z.div] (both round
      towards minus infinity, like Python's) and raise [ZeroDivisionError] on a
      zero divisor.
    - Python and torch floating-point numbers are real numbers ([R]): rounding,
      infinities and NaN are not part of the model.
    - A tensor is a shape together with its entries in row-major order.
    - Exceptions are values of [exn]; a computation that may raise returns a
      [result].
    - [forward] threads the block through (explicit state passing), and reads
      the random dropout masks of one call from an [Rng] argument. *)

From Stdlib Require Import String Bool ZArith Reals Lra Lia List.
From Stdlib Require Import Permutation.
Import ListNotations.

(* ------------------------------------------------------------------ *)
(** ** Exceptions and results *)

Module Py.

Inductive exn : Type :=
| ValueError (msg : string)
| ZeroDivisionError
| TypeError
| IndexError
| RuntimeError      (* raised by torch on a shape it cannot work with *)
| EinopsError       (* raised by einops when a pattern does not fit *)
| KeyError.         (* raised by a dict on a key it does not hold *)

Inductive result (A : Type) : Type :=
| Ok (a : A)
| Err (e : exn).

Arguments Ok {A} a.
Arguments Err {A} e.

Definition bind {A B} (r : result A) (f : A -> result B) : result B :=
  match r with
  | Ok a => f a
  | Err e => Err e
  end.

Definition fmap {A B} (f : A -> B) (r : result A) : result B :=
  bind r (fun a => Ok (f a)).

(** Python numbers that [**] can return on an [int] base. *)
Inductive pynum : Type :=
| PyFloat (r : R)
| PyComplex (re im : R).

(** [base ** -0.5] on an [int] base: [0 ** -0.5] raises, a negative base
    gives a complex number (the principal root: [|base|^(-1/2) * -i]). *)
Definition pow_neg_half (base : Z) : result pynum :=
  if (base =? 0)%Z then Err ZeroDivisionError
  else if (0 <? base)%Z then Ok (PyFloat (Rpower (IZR base) (- (1 / 2))))
  else Ok (PyComplex 0 (- Rpower (IZR (- base)) (- (1 / 2)))).

(** [a % b] and [a // b]. *)
Definition mod_ (a b : Z) : result Z :=
  if (b =? 0)%Z then Err ZeroDivisionError else Ok (a mod b)%Z.

Definition floordiv (a b : Z) : result Z :=
  if (b =? 0)%Z then Err ZeroDivisionError else Ok (a / b)%Z.

End Py.

Export Py.

Declare Scope py_scope.
Delimit Scope py_scope with py.
Notation "x <- c ;; k" := (bind c (fun x => k))
  (at level 61, c at next level, right associativity) : py_scope.
Notation "' pat <- c ;; k" := (bind c (fun x => match x with pat => k end))
  (at level 61, pat pattern, c at next level, right associativity) : py_scope.
Open Scope py_scope.

(* ------------------------------------------------------------------ *)
(** ** Tensors *)

Module Torch.

Open Scope R_scope.

Record Tensor : Type := mkTensor { shape : list nat; data : list R }.

Definition numel (sh : list nat) : nat := fold_right Nat.mul 1%nat sh.

(** Every tensor torch builds holds as many entries as its shape says. *)
Definition well_formed (t : Tensor) : Prop :=
  length (data t) = numel (shape t).

(** [torch.Tensor()]: the empty one-dimensional tensor. *)
Definition empty : Tensor := mkTensor [0%nat] [].

(** Entries of the tensor of shape [sh] whose entry at index [idx] is
    [f idx], in row-major order. *)
Fixpoint tab (sh : list nat) (f : list nat -> R) : list R :=
  match sh with
  | [] => [f []]
  | n :: sh' => flat_map (fun i => tab sh' (fun idx => f (i :: idx))) (seq 0 n)
  end.

Definition tabulate (sh : list nat) (f : list nat -> R) : Tensor :=
  mkTensor sh (tab sh f).

(** Row-major position of an index. *)
Fixpoint offset (sh idx : list nat) : nat :=
  match sh, idx with
  | _ :: sh', i :: idx' => (i * numel sh' + offset sh' idx')%nat
  | _, _ => 0%nat
  end.

Definition get (t : Tensor) (idx : list nat) : R :=
  nth (offset (shape t) idx) (data t) 0.

(** [idx] addresses an entry of a tensor of shape [sh]. *)
Definition in_range (sh idx : list nat) : Prop := Forall2 lt idx sh.

Definition rsum (l : list R) : R := fold_right Rplus 0 l.

(** Sum of [f 0 .. f (n-1)]. *)
Definition sum_upto (n : nat) (f : nat -> R) : R := rsum (map f (seq 0 n)).

Definition rmax_list (l : list R) : R :=
  match l with
  | [] => 0
  | v :: vs => fold_left Rmax vs v
  end.

(** *** Elementwise operations and reductions *)

(** [t * s] for a Python float [s]. *)
Definition mul_scalar (t : Tensor) (s : R) : Tensor :=
  tabulate (shape t) (fun idx => get t idx * s).

Definition zeros (sh : list nat) : Tensor := tabulate sh (fun _ => 0).

(** [t.softmax(dim=-1)]: along the last axis, with the row maximum taken off
    before exponentiation; a 0-dimensional tensor has the single row made of
    its entry. Entries being real numbers, an exponential is never 0 here,
    where a floating-point one can underflow to 0. *)
Definition softmax (t : Tensor) : Tensor :=
  let n := last (shape t) 1%nat in
  tabulate (shape t) (fun idx =>
    let row := map (fun j => get t (removelast idx ++ [j])) (seq 0 n) in
    let m := rmax_list row in
    exp (get t idx - m) / rsum (map (fun v => exp (v - m)) row)).

(** [torch.dropout(t, p, train)]. The entries the random generator keeps
    are those where [mask] is [true]; kept entries are scaled by
    [1 / (1 - p)]. With [p = 0], outside training, or on no entries, the
    input is returned; with [p = 1] everything is zeroed. *)
Definition dropout (t : Tensor) (p : R) (train : bool)
    (mask : list nat -> bool) : Tensor :=
  if negb train then t
  else if Req_dec_T p 0 then t
  else if Nat.eqb (numel (shape t)) 0 then t
  else if Req_dec_T p 1 then mul_scalar t 0
  else tabulate (shape t) (fun idx =>
         if mask idx then get t idx * (1 / (1 - p)) else 0).

(** *** Contractions (on the 4-dimensional operands [forward] passes) *)

(** [torch.einsum("blxd,blyd->blxy", q, k)]. *)
Definition einsum_blxd_blyd_blxy (q k : Tensor) : result Tensor :=
  match shape q, shape k with
  | [b; l; x; d], [b'; l'; y; d'] =>
      if Nat.eqb b b' && Nat.eqb l l' && Nat.eqb d d' then
        Ok (tabulate [b; l; x; y] (fun idx =>
              match idx with
              | [ib; il; ix; iy] =>
                  sum_upto d (fun id =>
                    get q [ib; il; ix; id] * get k [ib; il; iy; id])
              | _ => 0
              end))
      else Err RuntimeError
  | _, _ => Err RuntimeError
  end.

(** [torch.einsum("bhxy,bhyd->bhxd", a, v)]. *)
Definition einsum_bhxy_bhyd_bhxd (a v : Tensor) : result Tensor :=
  match shape a, shape v with
  | [b; h; x; y], [b'; h'; y'; d] =>
      if Nat.eqb b b' && Nat.eqb h h' && Nat.eqb y y' then
        Ok (tabulate [b; h; x; d] (fun idx =>
              match idx with
              | [ib; ih; ix; id] =>
                  sum_upto y (fun iy =>
                    get a [ib; ih; ix; iy] * get v [ib; ih; iy; id])
              | _ => 0
              end))
      else Err RuntimeError
  | _, _ => Err RuntimeError
  end.

(** [t.transpose(-2, -1)]. *)
Definition transpose_last2 (t : Tensor) : result Tensor :=
  match shape t with
  | [b; h; m; n] =>
      Ok (tabulate [b; h; n; m] (fun idx =>
            match idx with
            | [ib; ih; i; j] => get t [ib; ih; j; i]
            | _ => 0
            end))
  | _ => Err RuntimeError
  end.

(** [a @ c], the batched matrix product. *)
Definition matmul (a c : Tensor) : result Tensor :=
  match shape a, shape c with
  | [b; h; m; n], [b'; h'; n'; p] =>
      if Nat.eqb b b' && Nat.eqb h h' && Nat.eqb n n' then
        Ok (tabulate [b; h; m; p] (fun idx =>
              match idx with
              | [ib; ih; i; j] =>
                  sum_upto n (fun c0 =>
                    get a [ib; ih; i; c0] * get c [ib; ih; c0; j])
              | _ => 0
              end))
      else Err RuntimeError
  | _, _ => Err RuntimeError
  end.

(** [a += bias] with [bias] of shape [L, S] broadcast over the leading axes. *)
Definition add_bias_last2 (a bias : Tensor) : result Tensor :=
  match shape a, shape bias with
  | [b; h; m; n], [m'; n'] =>
      if Nat.eqb m m' && Nat.eqb n n' then
        Ok (tabulate [b; h; m; n] (fun idx =>
              match idx with
              | [ib; ih; i; j] => get a idx + get bias [i; j]
              | _ => 0
              end))
      else Err RuntimeError
  | _, _ => Err RuntimeError
  end.

(** [t[i]]: indexing along the first axis. *)
Definition getitem (t : Tensor) (i : nat) : result Tensor :=
  match shape t with
  | n :: sh => if Nat.ltb i n then Ok (tabulate sh (fun idx => get t (i :: idx)))
               else Err IndexError
  | [] => Err IndexError
  end.

(** [torch.nn.functional.scaled_dot_product_attention] with
    [attn_mask=None] and [is_causal=False], as the reference implementation
    of the torch documentation gives it: the attention bias is a zero
    [L x S] tensor, and dropout is applied with [train=True] whatever the
    mode of the calling module. [scale] has to be a float. *)
Definition scaled_dot_product_attention (query key value : Tensor)
    (scale : pynum) (dropout_p : R) (mask : list nat -> bool) : result Tensor :=
  match scale with
  | PyComplex _ _ => Err TypeError
  | PyFloat scale_factor =>
      match rev (shape query), rev (shape key) with
      | _ :: Lq :: _, _ :: Sk :: _ =>
          let attn_bias := zeros [Lq; Sk] in
          kt <- transpose_last2 key ;;
          attn_weight <- matmul query kt ;;
          let attn_weight := mul_scalar attn_weight scale_factor in
          attn_weight <- add_bias_last2 attn_weight attn_bias ;;
          let attn_weight := softmax attn_weight in
          let attn_weight := dropout attn_weight dropout_p true mask in
          matmul attn_weight value
      | _, _ => Err IndexError
      end
  end.

(** *** Layers *)

(** [nn.Linear]: [weight] has shape [out_features, in_features]. *)
Record Linear : Type := mkLinear {
  in_features : nat;
  out_features : nat;
  weight : Tensor;
  bias : option Tensor
}.

(** [nn.Linear(in_features, out_features, bias)]. The initial entries are
    the values [w] and [b] the initialiser draws; a negative size makes the
    allocation of the weight fail. *)
Definition Linear_new (inf outf : Z) (with_bias : bool)
    (w b : list nat -> R) : result Linear :=
  if ((inf <? 0) || (outf <? 0))%Z then Err RuntimeError
  else
    let i := Z.to_nat inf in
    let o := Z.to_nat outf in
    Ok (mkLinear i o (tabulate [o; i] w)
          (if with_bias then Some (tabulate [o] b) else None)).

(** [F.linear(x, weight, bias)]: the last axis of [x] is contracted with the
    rows of [weight]. *)
Definition Linear_forward (m : Linear) (x : Tensor) : result Tensor :=
  match rev (shape x) with
  | [] => Err RuntimeError
  | n :: pre =>
      if Nat.eqb n (in_features m) then
        Ok (tabulate (rev pre ++ [out_features m]) (fun idx =>
              let o := last idx 0%nat in
              sum_upto (in_features m) (fun i =>
                get x (removelast idx ++ [i]) * get (weight m) [o; i])
              + match bias m with
                | Some b => get b [o]
                | None => 0
                end))
      else Err RuntimeError
  end.

(** [nn.Dropout]. *)
Record Dropout : Type := mkDropout { p : R }.

Definition Dropout_new (p : R) : result Dropout :=
  if Rlt_dec p 0 then
    Err (ValueError "dropout probability has to be between 0 and 1")
  else if Rlt_dec 1 p then
    Err (ValueError "dropout probability has to be between 0 and 1")
  else Ok (mkDropout p).

(** The layer applies dropout only while its module is in training mode. *)
Definition Dropout_forward (m : Dropout) (training : bool)
    (mask : list nat -> bool) (x : Tensor) : Tensor :=
  dropout x (p m) training mask.

End Torch.

Export Torch.

(* ------------------------------------------------------------------ *)
(** ** einops layers *)

Module Einops.

(** The two patterns the block uses. *)
Inductive Rearrange : Type :=
| Rearrange_split (qkv l : Z)   (* "b h (qkv l d) -> qkv b l h d" *)
| Rearrange_merge.              (* "b h l d -> b l (h d)" *)

(** The repository pins no version of einops, and the layer does not
    behave alike in all of them: up to 0.6.1 it holds one recipe and checks
    the rank of its input against it; from 0.7.0 on it holds a dict of
    recipes keyed by rank and looks the rank of its input up in it. *)
Inductive version : Type :=
| Upto_0_6_1
| From_0_7_0.

(** What the layer raises on an input whose rank is not the one of its
    pattern. *)
Definition rank_error (v : version) : exn :=
  match v with
  | Upto_0_6_1 => EinopsError
  | From_0_7_0 => KeyError
  end.

(** Applying a layer. The rank is checked first; then the length of a
    composed axis has to be a multiple of its known factors, and the
    resulting lengths are handed to [reshape], which refuses a length that
    is not positive here (the quotient of a non-negative length by a
    negative one). *)
Definition Rearrange_forward (v : version) (m : Rearrange) (t : Tensor)
    : result Tensor :=
  match m with
  | Rearrange_split qkv l =>
      match shape t with
      | [b; h; n] =>
          r <- mod_ (Z.of_nat n) (qkv * l) ;;
          if negb (r =? 0)%Z then Err EinopsError
          else if (qkv <=? 0)%Z || (l <=? 0)%Z then Err RuntimeError
          else
            let c := Z.to_nat qkv in
            let nl := Z.to_nat l in
            let d := Z.to_nat (Z.of_nat n / (qkv * l)) in
            Ok (tabulate [c; b; nl; h; d] (fun idx =>
                  match idx with
                  | [iq; ib; il; ih; id] =>
                      get t [ib; ih; ((iq * nl + il) * d + id)%nat]
                  | _ => 0%R
                  end))
      | _ => Err (rank_error v)
      end
  | Rearrange_merge =>
      match shape t with
      | [b; h; l; d] =>
          Ok (tabulate [b; l; (h * d)%nat] (fun idx =>
                match idx with
                | [ib; il; j] => get t [ib; (j / d)%nat; il; (j mod d)%nat]
                | _ => 0%R
                end))
      | _ => Err (rank_error v)
      end
  end.

End Einops.

Export Einops.

(* ------------------------------------------------------------------ *)
(** ** The block *)

Open Scope R_scope.

(** The attributes [__init__] sets, and [training], the mode flag every
    [nn.Module] carries ([train()] and [eval()] set it on the block and on
    its dropout layers together). *)
Record SABlock : Type := mkSABlock {
  num_heads : Z;
  dim_head : Z;
  inner_dim : Z;
  out_proj : Linear;
  qkv : Linear;
  input_rearrange : Rearrange;
  out_rearrange : Rearrange;
  drop_output : Dropout;
  drop_weights : Dropout;
  dropout_rate : R;
  scale : pynum;
  save_attn : bool;
  att_mat : Tensor;
  use_flash_attention : bool;
  training : bool
}.

(** The values the initialisers of the two linear layers draw. *)
Record InitValues : Type := mkInitValues {
  out_proj_weight : list nat -> R;
  out_proj_bias : list nat -> R;
  qkv_weight : list nat -> R;
  qkv_bias_values : list nat -> R
}.

(** The random masks one call of [forward] draws for its dropout stages. *)
Record Rng : Type := mkRng {
  weights_mask : list nat -> bool;
  output_mask : list nat -> bool
}.

(** [0 <= x <= 1]. *)
Definition in_unit_interval (x : R) : bool :=
  if Rle_dec 0 x then if Rle_dec x 1 then true else false else false.

(** [SABlock.__init__]. *)
Definition SABlock_init (hidden_size num_heads : Z) (dropout_rate : R)
    (qkv_bias save_attn : bool) (dim_head : option Z)
    (init : InitValues) : result SABlock :=
  if negb (in_unit_interval dropout_rate) then
    Err (ValueError "dropout_rate should be between 0 and 1.")
  else
    r <- mod_ hidden_size num_heads ;;
    if negb (r =? 0)%Z then
      Err (ValueError "hidden size should be divisible by num_heads.")
    else
      dim_head <- match dim_head with
                  | None => floordiv hidden_size num_heads
                  | Some d => Ok d
                  end ;;
      let inner_dim := (dim_head * num_heads)%Z in
      out_proj <- Linear_new inner_dim hidden_size true
                    (out_proj_weight init) (out_proj_bias init) ;;
      qkv <- Linear_new hidden_size (inner_dim * 3) qkv_bias
               (qkv_weight init) (qkv_bias_values init) ;;
      let input_rearrange := Rearrange_split 3 num_heads in
      let out_rearrange := Rearrange_merge in
      drop_output <- Dropout_new dropout_rate ;;
      drop_weights <- Dropout_new dropout_rate ;;
      scale <- pow_neg_half dim_head ;;
      Ok {| num_heads := num_heads;
            dim_head := dim_head;
            inner_dim := inner_dim;
            out_proj := out_proj;
            qkv := qkv;
            input_rearrange := input_rearrange;
            out_rearrange := out_rearrange;
            drop_output := drop_output;
            drop_weights := drop_weights;
            dropout_rate := dropout_rate;
            scale := scale;
            save_attn := save_attn;
            att_mat := Torch.empty;
            use_flash_attention := false;
            training := true |}.

(** Assignments callers make on a constructed block. *)
Definition set_use_flash_attention (b : bool) (self : SABlock) : SABlock :=
  {| num_heads := num_heads self; dim_head := dim_head self;
     inner_dim := inner_dim self; out_proj := out_proj self;
     qkv := qkv self; input_rearrange := input_rearrange self;
     out_rearrange := out_rearrange self; drop_output := drop_output self;
     drop_weights := drop_weights self; dropout_rate := dropout_rate self;
     scale := scale self; save_attn := save_attn self;
     att_mat := att_mat self; use_flash_attention := b;
     training := training self |}.

(** [self.train(mode)]; [eval()] is [train(False)]. *)
Definition train (mode : bool) (self : SABlock) : SABlock :=
  {| num_heads := num_heads self; dim_head := dim_head self;
     inner_dim := inner_dim self; out_proj := out_proj self;
     qkv := qkv self; input_rearrange := input_rearrange self;
     out_rearrange := out_rearrange self; drop_output := drop_output self;
     drop_weights := drop_weights self; dropout_rate := dropout_rate self;
     scale := scale self; save_attn := save_attn self;
     att_mat := att_mat self;
     use_flash_attention := use_flash_attention self;
     training := mode |}.

Definition eval_ (self : SABlock) : SABlock := train false self.

(** [att_mat * self.scale]; the product with a complex number is a complex
    tensor, on which the softmax that follows is not implemented. *)
Definition mul_scale (t : Tensor) (s : pynum) : result Tensor :=
  match s with
  | PyFloat r => Ok (mul_scalar t r)
  | PyComplex _ _ => Err RuntimeError
  end.

(** The einops that line 19 imported: the two layers of the block are
    instances of its [Rearrange]. What follows holds for either kind of
    version. *)
Section Installed_einops.

Variable einops : version.

(** Lines 74-75 of [forward]: the packed projection and its split. *)
Definition project_qkv (self : SABlock) (x : Tensor)
    : result (Tensor * Tensor * Tensor) :=
  y <- Linear_forward (qkv self) x ;;
  output <- Rearrange_forward einops (input_rearrange self) y ;;
  q <- getitem output 0 ;;
  k <- getitem output 1 ;;
  v <- getitem output 2 ;;
  Ok (q, k, v).

(** Lines 88-89 of [forward]: the attention weights of the manual path,
    before dropout. *)
Definition attention_weights (self : SABlock) (q k : Tensor) : result Tensor :=
  att_mat <- einsum_blxd_blyd_blxy q k ;;
  att_mat <- mul_scale att_mat (scale self) ;;
  Ok (softmax att_mat).

(** [SABlock.forward]. No statement of it assigns an attribute of [self]:
    [att_mat] on lines 88-92 is a local variable. *)
Definition forward (self : SABlock) (rng : Rng) (x : Tensor)
    : result (Tensor * SABlock) :=
  '(q, k, v) <- project_qkv self x ;;
  x <- (if use_flash_attention self then
          scaled_dot_product_attention q k v (scale self)
            (dropout_rate self) (weights_mask rng)
        else
          att_mat <- attention_weights self q k ;;
          let att_mat :=
            Dropout_forward (drop_weights self) (training self)
              (weights_mask rng) att_mat in
          einsum_bhxy_bhyd_bhxd att_mat v) ;;
  x <- Rearrange_forward einops (out_rearrange self) x ;;
  x <- Linear_forward (out_proj self) x ;;
  let x :=
    Dropout_forward (drop_output self) (training self) (output_mask rng) x in
  Ok (x, self).

(** The output of a call, without the block. *)
Definition forward_output (self : SABlock) (rng : Rng) (x : Tensor)
    : result Tensor :=
  fmap fst (forward self rng x).

(** The manual path with both dropout stages left out: what [forward]
    computes when the dropout rate is 0. *)
Definition forward_no_dropout (self : SABlock) (x : Tensor) : result Tensor :=
  '(q, k, v) <- project_qkv self x ;;
  att_mat <- attention_weights self q k ;;
  x <- einsum_bhxy_bhyd_bhxd att_mat v ;;
  x <- Rearrange_forward einops (out_rearrange self) x ;;
  Linear_forward (out_proj self) x.

(** *** Vocabulary of the specification *)

(** The two error kinds of the specification, as the exceptions the code
    raises for them: [ValueError] from the checks of [__init__], and the
    errors torch and einops raise on a shape they cannot work with (the
    [KeyError] is the one of einops 0.7.0 and later on a wrong rank). *)
Definition InvalidConfiguration (e : exn) : Prop :=
  exists msg, e = ValueError msg.

Definition ShapeMismatch (e : exn) : Prop :=
  e = RuntimeError \/ e = EinopsError \/ e = KeyError.

(** The head dimension [__init__] works with. *)
Definition head_dim (hidden_size num_heads : Z) (dim_head : option Z) : Z :=
  match dim_head with
  | None => (hidden_size / num_heads)%Z
  | Some d => d
  end.

(** What the layers of a block agree on, for an input of [hidden] features:
    it holds of every block [__init__] returns for a positive number of
    heads, and assigning the flags or the parameters' entries keeps it. *)
Record consistent (hidden : nat) (self : SABlock) : Prop := {
  heads_pos : (0 < num_heads self)%Z;
  head_pos : (0 < dim_head self)%Z;
  qkv_in : in_features (qkv self) = hidden;
  qkv_out :
    out_features (qkv self) = Z.to_nat (dim_head self * num_heads self * 3);
  out_proj_in :
    in_features (out_proj self) = Z.to_nat (dim_head self * num_heads self);
  out_proj_out : out_features (out_proj self) = hidden;
  split_layer : input_rearrange self = Rearrange_split 3 (num_heads self);
  merge_layer : out_rearrange self = Rearrange_merge;
  scale_float : exists r, scale self = PyFloat r
}.

(** The rows of a 4-dimensional tensor: one per (batch, head, query). *)
Definition row_sum (t : Tensor) (ib ih ix : nat) : R :=
  sum_upto (last (shape t) 0%nat) (fun iy => get t [ib; ih; ix; iy]).

(** The block [__init__] returns once its checks and allocations went
    through, for a positive head dimension [d]. *)
Definition new_block (hidden_size num_heads : Z) (dropout_rate : R)
    (qkv_bias save_attn : bool) (d : Z) (init : InitValues) : SABlock :=
  let inner := (d * num_heads)%Z in
  {| num_heads := num_heads;
     dim_head := d;
     inner_dim := inner;
     out_proj :=
       mkLinear (Z.to_nat inner) (Z.to_nat hidden_size)
         (tabulate [Z.to_nat hidden_size; Z.to_nat inner]
            (out_proj_weight init))
         (Some (tabulate [Z.to_nat hidden_size] (out_proj_bias init)));
     qkv :=
       mkLinear (Z.to_nat hidden_size) (Z.to_nat (inner * 3))
         (tabulate [Z.to_nat (inner * 3); Z.to_nat hidden_size]
            (qkv_weight init))
         (if qkv_bias
          then Some (tabulate [Z.to_nat (inner * 3)] (qkv_bias_values init))
          else None);
     input_rearrange := Rearrange_split 3 num_heads;
     out_rearrange := Rearrange_merge;
     drop_output := mkDropout dropout_rate;
     drop_weights := mkDropout dropout_rate;
     dropout_rate := dropout_rate;
     scale := PyFloat (Rpower (IZR d) (- (1 / 2)));
     save_attn := save_attn;
     att_mat := Torch.empty;
     use_flash_attention := false;
     training := true |}.

(** Initial values used in examples. *)
Definition ones_init : InitValues :=
  mkInitValues (fun _ => 1) (fun _ => 0) (fun _ => 1) (fun _ => 0).

Definition keep_all : Rng := mkRng (fun _ => true) (fun _ => true).

(** The input of shape [[1; 1; 1]] holding 1. *)
Definition x111 : Tensor := mkTensor [1%nat; 1%nat; 1%nat] [1].

(** *** Multi-head attention, entry by entry *)

(** What follows writes the output of the block on one batch element
    [xs] (position, feature) as the usual formula of multi-head attention,
    to be compared with what [forward] computes through its layers. *)

Definition bias_entry (m : Linear) (o : nat) : R :=
  match bias m with
  | Some b => get b [o]
  | None => 0
  end.

(** Entry [o] of a linear layer on the feature vector [row]. *)
Definition linear_entry (m : Linear) (row : nat -> R) (o : nat) : R :=
  sum_upto (in_features m) (fun i => row i * get (weight m) [o; i])
  + bias_entry m o.

Definition heads (self : SABlock) : nat := Z.to_nat (num_heads self).
Definition head_size (self : SABlock) : nat := Z.to_nat (dim_head self).

Definition scale_value (self : SABlock) : R :=
  match scale self with
  | PyFloat r => r
  | PyComplex _ _ => 0
  end.

(** Coordinate [id] of the query ([c = 0]), key ([c = 1]) or value
    ([c = 2]) of head [il] at position [pos]. *)
Definition head_entry (self : SABlock) (xs : nat -> nat -> R)
    (c il pos id : nat) : R :=
  linear_entry (qkv self) (xs pos)
    ((c * heads self + il) * head_size self + id)%nat.

Definition score_entry (self : SABlock) (xs : nat -> nat -> R)
    (il ix iy : nat) : R :=
  sum_upto (head_size self) (fun d =>
    head_entry self xs 0 il ix d * head_entry self xs 1 il iy d)
  * scale_value self.

(** The attention weight of query [ix] on key [iy], over [s] positions. *)
Definition weight_entry (self : SABlock) (xs : nat -> nat -> R) (s : nat)
    (il ix iy : nat) : R :=
  let row := map (fun j => score_entry self xs il ix j) (seq 0 s) in
  let m := rmax_list row in
  exp (score_entry self xs il ix iy - m) / rsum (map (fun v => exp (v - m)) row).

Definition attended_entry (self : SABlock) (xs : nat -> nat -> R) (s : nat)
    (il ix id : nat) : R :=
  sum_upto s (fun iy =>
    weight_entry self xs s il ix iy * head_entry self xs 2 il iy id).

Definition output_entry (self : SABlock) (xs : nat -> nat -> R) (s : nat)
    (ix j : nat) : R :=
  linear_entry (out_proj self)
    (fun c => attended_entry self xs s
                (c / head_size self)%nat ix (c mod head_size self)%nat)
    j.

(** Batch element [ib] of an input. *)
Definition batch_slice (x : Tensor) (ib : nat) : nat -> nat -> R :=
  fun pos i => get x [ib; pos; i].

(* ------------------------------------------------------------------ *)
(** ** Tensors: building and reading *)

Lemma length_tab (sh : list nat) (f : list nat -> R) :
  length (tab sh f) = numel sh.
Proof.
  revert f. induction sh as [|n sh IH]; intros f; simpl; [reflexivity|].
  generalize 0%nat at 1. induction n as [|n IHn]; intros a; simpl.
  - reflexivity.
  - rewrite length_app, IH, IHn. reflexivity.
Qed.

Lemma tabulate_well_formed (sh : list nat) (f : list nat -> R) :
  well_formed (tabulate sh f).
Proof. apply length_tab. Qed.

(** Reading a concatenation of [n] blocks of length [m]. *)
Lemma nth_flat_map_seq (g : nat -> list R) (m n a i j : nat) (d : R) :
  (forall c, length (g c) = m) ->
  (i < n)%nat -> (j < m)%nat ->
  nth (i * m + j) (flat_map g (seq a n)) d = nth j (g (a + i)%nat) d.
Proof.
  intros Hlen. revert a i. induction n as [|n IH]; intros a i Hi Hj; [lia|].
  simpl. destruct i as [|i].
  - rewrite app_nth1 by (rewrite Hlen; lia).
    simpl. rewrite Nat.add_0_r. reflexivity.
  - rewrite app_nth2 by (rewrite Hlen; simpl; lia).
    rewrite Hlen.
    replace (S i * m + j - m)%nat with (i * m + j)%nat by (simpl; lia).
    rewrite IH by lia. f_equal. f_equal. lia.
Qed.

Lemma offset_lt (sh idx : list nat) :
  in_range sh idx -> (offset sh idx < numel sh)%nat.
Proof.
  intros H. induction H as [|i n idx sh Hi _ IH]; simpl; [lia|].
  nia.
Qed.

Lemma get_tabulate (sh : list nat) (f : list nat -> R) (idx : list nat) :
  in_range sh idx -> get (tabulate sh f) idx = f idx.
Proof.
  unfold get. simpl. intros H. revert f.
  induction H as [|i n idx sh Hi Hr IH]; intros f; simpl; [reflexivity|].
  rewrite nth_flat_map_seq with (m := numel sh).
  - simpl. apply (IH (fun idx0 => f (i :: idx0))).
  - intros c. apply length_tab.
  - exact Hi.
  - apply offset_lt. exact Hr.
Qed.

Lemma tab_ext (sh : list nat) (f g : list nat -> R) :
  (forall idx, in_range sh idx -> f idx = g idx) -> tab sh f = tab sh g.
Proof.
  revert f g. induction sh as [|n sh IH]; intros f g H; simpl.
  - f_equal. apply H. constructor.
  - assert (Hs : forall i, In i (seq 0 n) -> (i < n)%nat)
      by (intros i Hi; apply in_seq in Hi; lia).
    induction (seq 0 n) as [|i l IHl]; simpl; [reflexivity|].
    f_equal.
    + apply IH. intros idx Hidx. apply H. constructor; [|exact Hidx].
      apply Hs. left. reflexivity.
    + apply IHl. intros j Hj. apply Hs. right. exact Hj.
Qed.

Lemma tabulate_ext (sh : list nat) (f g : list nat -> R) :
  (forall idx, in_range sh idx -> f idx = g idx) ->
  tabulate sh f = tabulate sh g.
Proof. intros H. unfold tabulate. f_equal. apply tab_ext. exact H. Qed.

Lemma sum_upto_ext (n : nat) (f g : nat -> R) :
  (forall i, (i < n)%nat -> f i = g i) -> sum_upto n f = sum_upto n g.
Proof.
  intros H. unfold sum_upto. f_equal. apply map_ext_in.
  intros i Hi. apply in_seq in Hi. apply H. lia.
Qed.

(* ------------------------------------------------------------------ *)
(** ** The constructor *)

Lemma in_unit_interval_true (x : R) :
  in_unit_interval x = true <-> 0 <= x <= 1.
Proof.
  unfold in_unit_interval.
  destruct (Rle_dec 0 x), (Rle_dec x 1); split; intros H;
    try discriminate; try reflexivity; try lra; tauto.
Qed.

Lemma in_unit_interval_false (x : R) :
  in_unit_interval x = false <-> ~ (0 <= x <= 1).
Proof.
  rewrite <- in_unit_interval_true.
  destruct (in_unit_interval x); split; intros H;
    try discriminate; try reflexivity; try congruence.
Qed.

Lemma Dropout_new_ok (x : R) :
  0 <= x <= 1 -> Dropout_new x = Ok (mkDropout x).
Proof.
  intros H. unfold Dropout_new.
  destruct (Rlt_dec x 0); [lra|]. destruct (Rlt_dec 1 x); [lra|]. reflexivity.
Qed.

Lemma Linear_new_ok (inf outf : Z) (wb : bool) (w b : list nat -> R) :
  (0 <= inf)%Z -> (0 <= outf)%Z ->
  Linear_new inf outf wb w b =
  Ok (mkLinear (Z.to_nat inf) (Z.to_nat outf)
        (tabulate [Z.to_nat outf; Z.to_nat inf] w)
        (if wb then Some (tabulate [Z.to_nat outf] b) else None)).
Proof.
  intros Hi Ho. unfold Linear_new.
  destruct (Z.ltb_spec inf 0); [lia|].
  destruct (Z.ltb_spec outf 0); [lia|]. reflexivity.
Qed.

Lemma Linear_new_inv (inf outf : Z) (wb : bool) (w b : list nat -> R)
    (m : Linear) :
  Linear_new inf outf wb w b = Ok m ->
  (0 <= inf)%Z /\ (0 <= outf)%Z /\
  in_features m = Z.to_nat inf /\ out_features m = Z.to_nat outf.
Proof.
  unfold Linear_new.
  destruct (Z.ltb_spec inf 0); simpl; [discriminate|].
  destruct (Z.ltb_spec outf 0); simpl; [discriminate|].
  intros H1. injection H1 as <-. simpl. repeat split; assumption.
Qed.

Lemma Linear_new_error (inf outf : Z) (wb : bool) (w b : list nat -> R)
    (e : exn) :
  Linear_new inf outf wb w b = Err e -> e = RuntimeError.
Proof.
  unfold Linear_new. destruct (_ || _)%bool; intros H; congruence.
Qed.

Lemma pow_neg_half_error (base : Z) (e : exn) :
  pow_neg_half base = Err e -> e = ZeroDivisionError.
Proof.
  unfold pow_neg_half.
  destruct (base =? 0)%Z; [congruence|]. destruct (0 <? base)%Z; discriminate.
Qed.

Lemma pow_neg_half_pos (base : Z) :
  (0 < base)%Z ->
  pow_neg_half base = Ok (PyFloat (Rpower (IZR base) (- (1 / 2)))).
Proof.
  intros H. unfold pow_neg_half.
  destruct (Z.eqb_spec base 0); [lia|].
  destruct (Z.ltb_spec 0 base); [reflexivity|lia].
Qed.

Lemma pow_neg_half_inv (base : Z) (s : pynum) :
  pow_neg_half base = Ok s ->
  base <> 0%Z /\ ((0 < base)%Z -> exists r, s = PyFloat r).
Proof.
  unfold pow_neg_half.
  destruct (Z.eqb_spec base 0); [discriminate|].
  destruct (Z.ltb_spec 0 base); intros Heq; injection Heq as <-;
    (split; [assumption|]); intros Hb; [eauto|lia].
Qed.

(** What a successful construction went through, and what it leaves in the
    attributes the rest of the development reads. *)
Lemma SABlock_init_inv (hs nh : Z) (dr : R) (qb sa : bool) (dh : option Z)
    (init : InitValues) (blk : SABlock) :
  SABlock_init hs nh dr qb sa dh init = Ok blk ->
  0 <= dr <= 1 /\ nh <> 0%Z /\ (hs mod nh = 0)%Z /\
  (0 <= hs)%Z /\ (0 <= head_dim hs nh dh * nh)%Z /\ head_dim hs nh dh <> 0%Z /\
  num_heads blk = nh /\ dim_head blk = head_dim hs nh dh /\
  in_features (qkv blk) = Z.to_nat hs /\
  out_features (qkv blk) = Z.to_nat (head_dim hs nh dh * nh * 3) /\
  in_features (out_proj blk) = Z.to_nat (head_dim hs nh dh * nh) /\
  out_features (out_proj blk) = Z.to_nat hs /\
  input_rearrange blk = Rearrange_split 3 nh /\
  out_rearrange blk = Rearrange_merge /\
  p (drop_output blk) = dr /\ p (drop_weights blk) = dr /\
  dropout_rate blk = dr /\
  pow_neg_half (head_dim hs nh dh) = Ok (scale blk) /\
  save_attn blk = sa /\ att_mat blk = Torch.empty /\
  use_flash_attention blk = false /\ training blk = true.
Proof.
  unfold SABlock_init, mod_, floordiv.
  destruct (in_unit_interval dr) eqn:Hdr; simpl; [|discriminate].
  apply in_unit_interval_true in Hdr.
  destruct (Z.eqb_spec nh 0) as [|Hnh]; simpl; [discriminate|].
  destruct (Z.eqb_spec (hs mod nh) 0) as [Hmod|]; simpl; [|discriminate].
  unfold head_dim.
  destruct dh as [d|]; simpl;
    (destruct (Linear_new _ hs true _ _) as [op|] eqn:Hop; simpl;
       [|discriminate]);
    (destruct (Linear_new hs _ qb _ _) as [qk|] eqn:Hqk; simpl;
       [|discriminate]);
    rewrite (Dropout_new_ok dr Hdr); simpl;
    (destruct (pow_neg_half _) as [sc|] eqn:Hsc; simpl; [|discriminate]);
    intros H; injection H as <-; simpl;
    apply Linear_new_inv in Hop; apply Linear_new_inv in Hqk;
    destruct (pow_neg_half_inv _ _ Hsc) as [Hnz _];
    intuition.
Qed.

Lemma SABlock_init_dropout_error (hs nh : Z) (dr : R) (qb sa : bool)
    (dh : option Z) (init : InitValues) :
  ~ (0 <= dr <= 1) ->
  SABlock_init hs nh dr qb sa dh init =
  Err (ValueError "dropout_rate should be between 0 and 1.").
Proof.
  intros H. apply in_unit_interval_false in H.
  unfold SABlock_init. rewrite H. reflexivity.
Qed.

Lemma SABlock_init_zero_heads (hs : Z) (dr : R) (qb sa : bool)
    (dh : option Z) (init : InitValues) :
  0 <= dr <= 1 ->
  SABlock_init hs 0 dr qb sa dh init = Err ZeroDivisionError.
Proof.
  intros H. apply in_unit_interval_true in H.
  unfold SABlock_init. rewrite H. reflexivity.
Qed.

Lemma SABlock_init_indivisible (hs nh : Z) (dr : R) (qb sa : bool)
    (dh : option Z) (init : InitValues) :
  0 <= dr <= 1 -> nh <> 0%Z -> (hs mod nh)%Z <> 0%Z ->
  SABlock_init hs nh dr qb sa dh init =
  Err (ValueError "hidden size should be divisible by num_heads.").
Proof.
  intros H Hnh Hmod. apply in_unit_interval_true in H.
  unfold SABlock_init, mod_. rewrite H. simpl.
  destruct (Z.eqb_spec nh 0); [contradiction|]. simpl.
  destruct (Z.eqb_spec (hs mod nh) 0); [contradiction|]. reflexivity.
Qed.

(** Past its two checks the constructor raises no [ValueError]: what can
    still fail is the allocation of a layer and the power in [scale]. *)
Lemma SABlock_init_divisible (hs nh : Z) (dr : R) (qb sa : bool)
    (dh : option Z) (init : InitValues) :
  0 <= dr <= 1 -> nh <> 0%Z -> (hs mod nh = 0)%Z ->
  (exists blk, SABlock_init hs nh dr qb sa dh init = Ok blk) \/
  SABlock_init hs nh dr qb sa dh init = Err RuntimeError \/
  SABlock_init hs nh dr qb sa dh init = Err ZeroDivisionError.
Proof.
  intros H Hnh Hmod. pose proof H as Hb. apply in_unit_interval_true in Hb.
  unfold SABlock_init, mod_, floordiv. rewrite Hb. simpl.
  destruct (Z.eqb_spec nh 0); [contradiction|]. simpl.
  rewrite Hmod. simpl.
  destruct dh as [d|]; simpl;
    (destruct (Linear_new _ hs true _ _) as [op|e1] eqn:Hop; simpl;
       [|apply Linear_new_error in Hop; subst e1; auto]);
    (destruct (Linear_new hs _ qb _ _) as [qk|e2] eqn:Hqk; simpl;
       [|apply Linear_new_error in Hqk; subst e2; auto]);
    rewrite (Dropout_new_ok dr H); simpl;
    (destruct (pow_neg_half _) as [sc|e3] eqn:Hsc; simpl;
       [|apply pow_neg_half_error in Hsc; subst e3; auto]);
    left; eexists; reflexivity.
Qed.

Lemma SABlock_init_value (hs nh : Z) (dr : R) (qb sa : bool)
    (dh : option Z) (init : InitValues) :
  0 <= dr <= 1 -> (0 < nh)%Z -> (hs mod nh = 0)%Z -> (0 <= hs)%Z ->
  (0 < head_dim hs nh dh)%Z ->
  SABlock_init hs nh dr qb sa dh init =
  Ok (new_block hs nh dr qb sa (head_dim hs nh dh) init).
Proof.
  intros H Hnh Hmod Hhs Hd. pose proof H as Hb.
  apply in_unit_interval_true in Hb.
  unfold SABlock_init, mod_, floordiv. rewrite Hb. simpl.
  destruct (Z.eqb_spec nh 0); [lia|]. simpl.
  rewrite Hmod. simpl.
  assert (Hm : match dh with
               | Some d => Ok d
               | None => Ok (hs / nh)%Z
               end = Ok (head_dim hs nh dh)) by (destruct dh; reflexivity).
  rewrite Hm. simpl.
  rewrite Linear_new_ok by nia. simpl.
  rewrite Linear_new_ok by nia. simpl.
  rewrite (Dropout_new_ok dr H). simpl.
  rewrite (pow_neg_half_pos _ Hd). simpl.
  reflexivity.
Qed.

Lemma SABlock_init_ok (hs nh : Z) (dr : R) (qb sa : bool)
    (dh : option Z) (init : InitValues) :
  0 <= dr <= 1 -> (0 < nh)%Z -> (hs mod nh = 0)%Z -> (0 <= hs)%Z ->
  (0 < head_dim hs nh dh)%Z ->
  exists blk, SABlock_init hs nh dr qb sa dh init = Ok blk.
Proof.
  intros. eexists. apply SABlock_init_value; assumption.
Qed.

(** With the default head dimension, a positive hidden size that the
    number of heads divides gives a positive head dimension. *)
Lemma default_head_dim_pos (hs nh : Z) :
  (0 < hs)%Z -> (0 < nh)%Z -> (hs mod nh = 0)%Z ->
  (0 < head_dim hs nh None)%Z.
Proof.
  intros Hhs Hnh Hmod. simpl.
  apply Z.div_str_pos. split; [assumption|].
  pose proof (Z.div_mod hs nh ltac:(lia)) as Hdm. rewrite Hmod in Hdm.
  destruct (Z.le_gt_cases nh hs) as [|Hlt]; [assumption|].
  rewrite (Z.div_small hs nh) in Hdm by lia. lia.
Qed.

Lemma SABlock_init_consistent (hs nh : Z) (dr : R) (qb sa : bool)
    (dh : option Z) (init : InitValues) (blk : SABlock) :
  SABlock_init hs nh dr qb sa dh init = Ok blk -> (0 < nh)%Z ->
  consistent (Z.to_nat hs) blk.
Proof.
  intros H Hnh. apply SABlock_init_inv in H.
  destruct H as (_ & _ & _ & _ & Hin & Hnz & E1 & E2 & E3 & E4 & E5 & E6 &
                 E7 & E8 & _ & _ & _ & Hsc & _).
  assert (Hd : (0 < head_dim hs nh dh)%Z) by nia.
  constructor; rewrite ?E1, ?E2; try assumption.
  apply pow_neg_half_inv in Hsc. destruct Hsc as [_ Hsc]. apply Hsc, Hd.
Qed.

Lemma consistent_set_use_flash_attention (hidden : nat) (b : bool)
    (self : SABlock) :
  consistent hidden self -> consistent hidden (set_use_flash_attention b self).
Proof. intros [? ? ? ? ? ? ? ? ?]. constructor; assumption. Qed.

Lemma consistent_train (hidden : nat) (mode : bool) (self : SABlock) :
  consistent hidden self -> consistent hidden (train mode self).
Proof. intros [? ? ? ? ? ? ? ? ?]. constructor; assumption. Qed.

(* ------------------------------------------------------------------ *)
(** ** Shapes through the layers *)

Arguments tab : simpl never.
Arguments sum_upto : simpl never.

Lemma Linear_forward_ok (m : Linear) (x : Tensor) (pre : list nat) :
  shape x = pre ++ [in_features m] ->
  exists y, Linear_forward m x = Ok y /\ shape y = pre ++ [out_features m].
Proof.
  intros H. unfold Linear_forward. rewrite H, rev_app_distr. simpl.
  rewrite Nat.eqb_refl. eexists. split; [reflexivity|].
  simpl. rewrite rev_involutive. reflexivity.
Qed.

Lemma Linear_forward_inv (m : Linear) (x y : Tensor) :
  Linear_forward m x = Ok y ->
  exists pre, shape x = pre ++ [in_features m] /\
              shape y = pre ++ [out_features m].
Proof.
  unfold Linear_forward. destruct (rev (shape x)) as [|n pre] eqn:Hrev;
    [discriminate|].
  destruct (Nat.eqb_spec n (in_features m)) as [->|]; [|discriminate].
  intros H. injection H as <-. exists (rev pre). split; [|reflexivity].
  rewrite <- (rev_involutive (shape x)), Hrev. reflexivity.
Qed.

Lemma Linear_forward_error (m : Linear) (x : Tensor) (e : exn) :
  Linear_forward m x = Err e -> e = RuntimeError.
Proof.
  unfold Linear_forward. destruct (rev (shape x)); [congruence|].
  destruct (Nat.eqb _ _); congruence.
Qed.

Lemma split_rank_error (q l : Z) (t : Tensor) :
  length (shape t) <> 3%nat ->
  Rearrange_forward einops (Rearrange_split q l) t = Err (rank_error einops).
Proof.
  intros H. simpl.
  destruct (shape t) as [|a [|b [|c [|d sh]]]]; simpl in *;
    try reflexivity.
  contradiction.
Qed.

Lemma split_ok (l d : Z) (t : Tensor) (b s n : nat) :
  shape t = [b; s; n] -> (0 < l)%Z -> (0 <= d)%Z ->
  Z.of_nat n = (d * l * 3)%Z ->
  exists o, Rearrange_forward einops (Rearrange_split 3 l) t = Ok o /\
            shape o = [3%nat; b; Z.to_nat l; s; Z.to_nat d].
Proof.
  intros Hsh Hl Hd Hn. cbn [Rearrange_forward]. rewrite Hsh. unfold mod_.
  destruct (Z.eqb_spec (3 * l) 0); [lia|]. cbn [bind].
  replace (Z.of_nat n) with (d * (3 * l))%Z by lia.
  rewrite Z.mod_mul, Z.div_mul by lia.
  change (0 =? 0)%Z with true. change (3 <=? 0)%Z with false.
  destruct (Z.leb_spec l 0); [lia|]. cbn [negb orb].
  eexists. split; reflexivity.
Qed.

Lemma getitem_ok (t : Tensor) (i n : nat) (sh : list nat) :
  shape t = n :: sh -> (i < n)%nat ->
  getitem t i = Ok (tabulate sh (fun idx => get t (i :: idx))).
Proof.
  intros Hsh Hi. unfold getitem. rewrite Hsh.
  destruct (Nat.ltb_spec i n); [reflexivity|lia].
Qed.

Lemma project_qkv_ok (hidden : nat) (self : SABlock) (x : Tensor)
    (b s : nat) :
  consistent hidden self -> shape x = [b; s; hidden] ->
  exists q k v,
    project_qkv self x = Ok (q, k, v) /\
    shape q = [b; Z.to_nat (num_heads self); s; Z.to_nat (dim_head self)] /\
    shape k = [b; Z.to_nat (num_heads self); s; Z.to_nat (dim_head self)] /\
    shape v = [b; Z.to_nat (num_heads self); s; Z.to_nat (dim_head self)].
Proof.
  intros C Hx. unfold project_qkv.
  destruct (Linear_forward_ok (qkv self) x [b; s]) as (y & -> & Hy).
  { rewrite (qkv_in _ _ C). exact Hx. }
  simpl. rewrite (split_layer _ _ C).
  destruct (split_ok (num_heads self) (dim_head self) y b s
              (out_features (qkv self))) as (o & Ho & Hso).
  { exact Hy. }
  { apply (heads_pos _ _ C). }
  { pose proof (head_pos _ _ C). lia. }
  { rewrite (qkv_out _ _ C). pose proof (heads_pos _ _ C).
    pose proof (head_pos _ _ C). rewrite Z2Nat.id by nia. reflexivity. }
  rewrite Ho. simpl.
  rewrite !(getitem_ok o _ _ _ Hso) by lia. simpl.
  do 3 eexists. split; [reflexivity|]. repeat split.
Qed.

Lemma shape_softmax (t : Tensor) : shape (softmax t) = shape t.
Proof. reflexivity. Qed.

Lemma shape_dropout (t : Tensor) (p : R) (tr : bool) (mask : list nat -> bool) :
  shape (dropout t p tr mask) = shape t.
Proof.
  unfold dropout. destruct tr; simpl; [|reflexivity].
  destruct (Req_dec_T p 0); [reflexivity|].
  destruct (Nat.eqb _ _); [reflexivity|].
  destruct (Req_dec_T p 1); reflexivity.
Qed.

Lemma well_formed_dropout (t : Tensor) (p : R) (tr : bool)
    (mask : list nat -> bool) :
  well_formed t -> well_formed (dropout t p tr mask).
Proof.
  intros H. unfold dropout. destruct tr; simpl; [|exact H].
  destruct (Req_dec_T p 0); [exact H|].
  destruct (Nat.eqb _ _); [exact H|].
  destruct (Req_dec_T p 1); apply tabulate_well_formed.
Qed.

Lemma attention_weights_ok (hidden : nat) (self : SABlock) (q k : Tensor)
    (b l s d : nat) :
  consistent hidden self ->
  shape q = [b; l; s; d] -> shape k = [b; l; s; d] ->
  exists a, attention_weights self q k = Ok (softmax a) /\
            shape a = [b; l; s; s].
Proof.
  intros C Hq Hk. unfold attention_weights, einsum_blxd_blyd_blxy.
  rewrite Hq, Hk, !Nat.eqb_refl. simpl.
  destruct (scale_float _ _ C) as [r ->]. simpl.
  eexists. split; reflexivity.
Qed.

Lemma einsum_bhxy_bhyd_bhxd_ok (a v : Tensor) (b h x y d : nat) :
  shape a = [b; h; x; y] -> shape v = [b; h; y; d] ->
  exists o, einsum_bhxy_bhyd_bhxd a v = Ok o /\ shape o = [b; h; x; d].
Proof.
  intros Ha Hv. unfold einsum_bhxy_bhyd_bhxd.
  rewrite Ha, Hv, !Nat.eqb_refl. simpl. eexists. split; reflexivity.
Qed.

Lemma matmul_ok (a c : Tensor) (b h m n p : nat) :
  shape a = [b; h; m; n] -> shape c = [b; h; n; p] ->
  exists o, matmul a c = Ok o /\ shape o = [b; h; m; p].
Proof.
  intros Ha Hc. unfold matmul.
  rewrite Ha, Hc, !Nat.eqb_refl. simpl. eexists. split; reflexivity.
Qed.

Lemma scaled_dot_product_attention_ok (q k v : Tensor) (r p : R)
    (mask : list nat -> bool) (b l s d : nat) :
  shape q = [b; l; s; d] -> shape k = [b; l; s; d] ->
  shape v = [b; l; s; d] ->
  exists o, scaled_dot_product_attention q k v (PyFloat r) p mask = Ok o /\
            shape o = [b; l; s; d].
Proof.
  intros Hq Hk Hv. unfold scaled_dot_product_attention.
  rewrite Hq, Hk. cbn [rev app]. unfold transpose_last2. rewrite Hk.
  cbn [bind].
  destruct (matmul_ok q (tabulate [b; l; d; s] (fun idx =>
              match idx with
              | [ib; ih; i; j] => get k [ib; ih; j; i]
              | _ => 0
              end)) b l s d s Hq eq_refl) as (a & -> & Ha).
  cbn [bind]. unfold add_bias_last2.
  cbn [shape mul_scalar zeros tabulate]. rewrite Ha, !Nat.eqb_refl.
  cbn [andb bind].
  apply matmul_ok with (n := s); [|exact Hv].
  rewrite shape_dropout. reflexivity.
Qed.

Lemma merge_ok (t : Tensor) (b h l d : nat) :
  shape t = [b; h; l; d] ->
  exists o, Rearrange_forward einops Rearrange_merge t = Ok o /\
            shape o = [b; l; (h * d)%nat].
Proof.
  intros H. simpl. rewrite H. eexists. split; reflexivity.
Qed.

Lemma Linear_forward_well_formed (m : Linear) (x y : Tensor) :
  Linear_forward m x = Ok y -> well_formed y.
Proof.
  unfold Linear_forward. destruct (rev (shape x)); [discriminate|].
  destruct (Nat.eqb _ _); [|discriminate].
  intros H. injection H as <-. apply tabulate_well_formed.
Qed.

(* ------------------------------------------------------------------ *)
(** ** The forward pass *)

(** [forward] hands the block back as it received it. *)
Lemma forward_keeps_block (self self' : SABlock) (rng : Rng) (x y : Tensor) :
  forward self rng x = Ok (y, self') -> self' = self.
Proof.
  unfold forward.
  destruct (project_qkv self x) as [[[q k] v]|]; simpl; [|discriminate].
  destruct (if use_flash_attention self then _ else _) as [a|]; simpl;
    [|discriminate].
  destruct (Rearrange_forward _ _ a) as [m|]; simpl; [|discriminate].
  destruct (Linear_forward _ m) as [o|]; simpl; [|discriminate].
  intros H. injection H as _ <-. reflexivity.
Qed.

(** On a consistent block and an input of shape [[b; s; hidden]] the call
    returns, on either path, whatever the mode and the masks. *)
Lemma forward_ok (hidden : nat) (self : SABlock) (rng : Rng) (x : Tensor)
    (b s : nat) :
  consistent hidden self -> shape x = [b; s; hidden] ->
  exists y, forward self rng x = Ok (y, self) /\
            shape y = [b; s; hidden] /\ well_formed y.
Proof.
  intros C Hx. unfold forward.
  destruct (project_qkv_ok hidden self x b s C Hx)
    as (q & k & v & -> & Hq & Hk & Hv).
  cbn [bind].
  set (L := Z.to_nat (num_heads self)) in *.
  set (D := Z.to_nat (dim_head self)) in *.
  assert (Ha : exists a,
    (if use_flash_attention self
     then scaled_dot_product_attention q k v (scale self)
            (dropout_rate self) (weights_mask rng)
     else att_mat <- attention_weights self q k ;;
          einsum_bhxy_bhyd_bhxd
            (Dropout_forward (drop_weights self) (training self)
               (weights_mask rng) att_mat) v) = Ok a /\
    shape a = [b; L; s; D]).
  { destruct (use_flash_attention self).
    - destruct (scale_float _ _ C) as [r ->].
      apply scaled_dot_product_attention_ok; assumption.
    - destruct (attention_weights_ok hidden self q k b L s D C Hq Hk)
        as (a & -> & Hsa).
      cbn [bind]. apply einsum_bhxy_bhyd_bhxd_ok with (y := s); [|exact Hv].
      unfold Dropout_forward. rewrite shape_dropout, shape_softmax.
      exact Hsa. }
  destruct Ha as (a & -> & Hsa). cbn [bind].
  rewrite (merge_layer _ _ C).
  destruct (merge_ok a b L s D Hsa) as (m & -> & Hm). cbn [bind].
  destruct (Linear_forward_ok (out_proj self) m [b; s]) as (o & Ho & Hso).
  { rewrite Hm, (out_proj_in _ _ C). unfold L, D.
    pose proof (heads_pos _ _ C). pose proof (head_pos _ _ C).
    rewrite Z2Nat.inj_mul by lia. simpl. do 3 f_equal. lia. }
  rewrite Ho. cbn [bind]. eexists. split; [reflexivity|].
  unfold Dropout_forward. split.
  - rewrite shape_dropout, Hso, (out_proj_out _ _ C). reflexivity.
  - apply well_formed_dropout. eapply Linear_forward_well_formed. exact Ho.
Qed.

(** A wrong last dimension stops the call in the packed projection, a wrong
    rank in the split that follows it. *)
Lemma forward_bad_last (hidden : nat) (self : SABlock) (rng : Rng)
    (x : Tensor) :
  in_features (qkv self) = hidden ->
  last (shape x) hidden <> hidden \/ shape x = [] ->
  forward self rng x = Err RuntimeError.
Proof.
  intros Hin Hbad. unfold forward, project_qkv.
  destruct (Linear_forward (qkv self) x) as [y|e] eqn:Hy.
  - exfalso. apply Linear_forward_inv in Hy. destruct Hy as (pre & Hs & _).
    rewrite Hin in Hs. destruct Hbad as [Hbad|Hbad].
    + apply Hbad. rewrite Hs. apply last_last.
    + rewrite Hbad in Hs. destruct pre; discriminate.
  - apply Linear_forward_error in Hy. subst e. reflexivity.
Qed.

Lemma ShapeMismatch_rank_error : ShapeMismatch (rank_error einops).
Proof. destruct einops; [right; left|right; right]; reflexivity. Qed.

Lemma forward_bad_rank (self : SABlock) (rng : Rng) (x : Tensor) (q l : Z) :
  input_rearrange self = Rearrange_split q l ->
  length (shape x) <> 3%nat ->
  exists e, forward self rng x = Err e /\ ShapeMismatch e.
Proof.
  intros Hsplit Hrank. unfold forward, project_qkv.
  destruct (Linear_forward (qkv self) x) as [y|e] eqn:Hy.
  - cbn [bind]. rewrite Hsplit, split_rank_error.
    + exists (rank_error einops).
      split; [reflexivity|apply ShapeMismatch_rank_error].
    + apply Linear_forward_inv in Hy. destruct Hy as (pre & Hs & ->).
      rewrite Hs in Hrank. rewrite !length_app in *. exact Hrank.
  - apply Linear_forward_error in Hy. subst e.
    exists RuntimeError. split; [reflexivity|left; reflexivity].
Qed.

(* ------------------------------------------------------------------ *)
(** ** Softmax *)

Lemma rsum_scale (A : Type) (f : A -> R) (c : R) (l : list A) :
  rsum (map (fun a => f a / c) l) = rsum (map f l) / c.
Proof.
  induction l as [|a l IH]; simpl.
  - unfold Rdiv. rewrite Rmult_0_l. reflexivity.
  - rewrite IH. unfold Rdiv. rewrite Rmult_plus_distr_r. reflexivity.
Qed.

Lemma rsum_exp_pos (A : Type) (f : A -> R) (l : list A) :
  l <> [] -> 0 < rsum (map (fun a => exp (f a)) l).
Proof.
  destruct l as [|a l]; [contradiction|]. intros _. simpl.
  assert (H : 0 <= rsum (map (fun a0 => exp (f a0)) l)).
  { induction l as [|c l IH]; simpl; [lra|].
    pose proof (exp_pos (f c)). lra. }
  pose proof (exp_pos (f a)). lra.
Qed.

Lemma in_range4 (a b c d : nat) (idx : list nat) :
  in_range [a; b; c; d] idx ->
  exists i j k l, idx = [i; j; k; l] /\
                  (i < a)%nat /\ (j < b)%nat /\ (k < c)%nat /\ (l < d)%nat.
Proof.
  intros H. inversion H as [|i ? i1 ? Hi H1]; subst.
  inversion H1 as [|j ? i2 ? Hj H2]; subst.
  inversion H2 as [|k ? i3 ? Hk H3]; subst.
  inversion H3 as [|l ? i4 ? Hl H4]; subst.
  inversion H4; subst. exists i, j, k, l. auto.
Qed.

Lemma in_range4_intro (a b c d i j k l : nat) :
  (i < a)%nat -> (j < b)%nat -> (k < c)%nat -> (l < d)%nat ->
  in_range [a; b; c; d] [i; j; k; l].
Proof. intros. repeat constructor; assumption. Qed.

(** Each row of a softmax over a non-empty last axis sums to 1. *)
Lemma softmax_row_sum (t : Tensor) (b h x n ib ih ix : nat) :
  shape t = [b; h; x; n] ->
  (ib < b)%nat -> (ih < h)%nat -> (ix < x)%nat -> (0 < n)%nat ->
  row_sum (softmax t) ib ih ix = 1.
Proof.
  intros Hsh Hb Hh Hx Hn. unfold row_sum. rewrite shape_softmax, Hsh.
  cbn [last].
  set (m := rmax_list (map (fun j => get t [ib; ih; ix; j]) (seq 0 n))).
  set (den := rsum (map (fun j => exp (get t [ib; ih; ix; j] - m)) (seq 0 n))).
  rewrite (sum_upto_ext n _
             (fun iy => exp (get t [ib; ih; ix; iy] - m) / den)).
  - unfold sum_upto. rewrite rsum_scale. fold den.
    assert (Hden : 0 < den).
    { unfold den. apply rsum_exp_pos with (f := fun j => _ - m).
      destruct n; [lia|]. discriminate. }
    unfold Rdiv. apply Rinv_r. lra.
  - intros iy Hy. unfold softmax. rewrite get_tabulate.
    + rewrite Hsh. cbn [last removelast app]. rewrite map_map. reflexivity.
    + rewrite Hsh. apply in_range4_intro; assumption.
Qed.

(* ------------------------------------------------------------------ *)
(** ** Dropout, and the fused primitive against the manual path *)

Lemma dropout_zero (t : Tensor) (tr : bool) (mask : list nat -> bool) :
  dropout t 0 tr mask = t.
Proof.
  unfold dropout. destruct tr; simpl; [|reflexivity].
  destruct (Req_dec_T 0 0); [reflexivity|contradiction].
Qed.

Lemma dropout_eval (t : Tensor) (p : R) (mask : list nat -> bool) :
  dropout t p false mask = t.
Proof. reflexivity. Qed.

Lemma matmul_einsum (a v : Tensor) :
  matmul a v = einsum_bhxy_bhyd_bhxd a v.
Proof. reflexivity. Qed.

(** [q @ k.transpose(-2, -1)] is the contraction "blxd,blyd->blxy". *)
Lemma matmul_transpose (q k : Tensor) (b l x y d : nat) :
  shape q = [b; l; x; d] -> shape k = [b; l; y; d] ->
  (kt <- transpose_last2 k ;; matmul q kt) = einsum_blxd_blyd_blxy q k.
Proof.
  intros Hq Hk. unfold transpose_last2, matmul, einsum_blxd_blyd_blxy.
  rewrite Hk. cbn [bind shape tabulate]. rewrite Hq, !Nat.eqb_refl.
  cbn [andb]. f_equal. apply tabulate_ext. intros idx Hidx.
  apply in_range4 in Hidx.
  destruct Hidx as (ib & il & ix & iy & -> & Hb & Hl & Hx & Hy).
  apply sum_upto_ext. intros c Hc. f_equal.
  rewrite (get_tabulate [b; l; d; y])
    by (apply in_range4_intro; assumption).
  reflexivity.
Qed.

(** Adding the zero attention bias changes nothing. *)
Lemma add_zero_bias (f : list nat -> R) (b h m n : nat) :
  add_bias_last2 (tabulate [b; h; m; n] f) (zeros [m; n]) =
  Ok (tabulate [b; h; m; n] f).
Proof.
  unfold add_bias_last2, zeros. cbn [shape tabulate].
  rewrite !Nat.eqb_refl. cbn [andb]. f_equal.
  apply tabulate_ext. intros idx Hidx. pose proof Hidx as Hr.
  apply in_range4 in Hidx.
  destruct Hidx as (ib & ih & i & j & -> & Hb & Hh & Hi & Hj).
  rewrite (get_tabulate [b; h; m; n]) by exact Hr.
  rewrite (get_tabulate [m; n]) by (repeat constructor; assumption).
  apply Rplus_0_r.
Qed.

(** Without dropout the fused primitive computes what lines 88-92 do. *)
Lemma scaled_dot_product_attention_manual (q k v : Tensor) (r : R)
    (mask : list nat -> bool) (b l x y d : nat) :
  shape q = [b; l; x; d] -> shape k = [b; l; y; d] ->
  scaled_dot_product_attention q k v (PyFloat r) 0 mask =
  (a <- einsum_blxd_blyd_blxy q k ;;
   einsum_bhxy_bhyd_bhxd (softmax (mul_scalar a r)) v).
Proof.
  intros Hq Hk. unfold scaled_dot_product_attention.
  rewrite Hq, Hk. cbn [rev app].
  pose proof (matmul_transpose q k b l x y d Hq Hk) as Hmt.
  unfold einsum_blxd_blyd_blxy in *. rewrite Hq, Hk, !Nat.eqb_refl in *.
  cbn [andb] in *.
  destruct (transpose_last2 k) as [kt|]; cbn [bind] in *; [|discriminate].
  rewrite Hmt. cbn [bind]. unfold mul_scalar at 1. cbn [shape tabulate].
  rewrite add_zero_bias. cbn [bind]. rewrite dropout_zero.
  reflexivity.
Qed.

Lemma scaled_dot_product_attention_mask (q k v : Tensor) (s : pynum)
    (m1 m2 : list nat -> bool) :
  scaled_dot_product_attention q k v s 0 m1 =
  scaled_dot_product_attention q k v s 0 m2.
Proof.
  unfold scaled_dot_product_attention. destruct s as [r|]; [|reflexivity].
  destruct (rev (shape q)) as [|? [|? ?]]; try reflexivity.
  destruct (rev (shape k)) as [|? [|? ?]]; try reflexivity.
  destruct (transpose_last2 k); cbn [bind]; [|reflexivity].
  destruct (matmul q _); cbn [bind]; [|reflexivity].
  destruct (add_bias_last2 _ _); cbn [bind]; [|reflexivity].
  rewrite !dropout_zero. reflexivity.
Qed.

(** With a dropout rate of 0 the masks of a call are not looked at. *)
Lemma forward_rng_irrelevant (self : SABlock) (rng1 rng2 : Rng) (x : Tensor) :
  dropout_rate self = 0 -> p (drop_weights self) = 0 ->
  p (drop_output self) = 0 ->
  forward self rng1 x = forward self rng2 x.
Proof.
  intros Hr Hw Ho. unfold forward, Dropout_forward. rewrite Hr, Hw, Ho.
  destruct (project_qkv self x) as [[[q k] v]|]; cbn [bind]; [|reflexivity].
  replace (if use_flash_attention self
           then scaled_dot_product_attention q k v (scale self) 0
                  (weights_mask rng1)
           else att_mat <- attention_weights self q k ;;
                einsum_bhxy_bhyd_bhxd
                  (dropout att_mat 0 (training self) (weights_mask rng1)) v)
    with (if use_flash_attention self
          then scaled_dot_product_attention q k v (scale self) 0
                 (weights_mask rng2)
          else att_mat <- attention_weights self q k ;;
               einsum_bhxy_bhyd_bhxd
                 (dropout att_mat 0 (training self) (weights_mask rng2)) v).
  - destruct (if use_flash_attention self then _ else _); cbn [bind];
      [|reflexivity].
    destruct (Rearrange_forward _ _ _); cbn [bind]; [|reflexivity].
    destruct (Linear_forward _ _); cbn [bind]; [|reflexivity].
    rewrite !dropout_zero. reflexivity.
  - destruct (use_flash_attention self).
    + apply scaled_dot_product_attention_mask.
    + destruct (attention_weights self q k); cbn [bind]; [|reflexivity].
      rewrite !dropout_zero. reflexivity.
Qed.

(** The manual path, when its two dropout layers do nothing. *)
Lemma forward_manual_no_dropout (self : SABlock) (rng : Rng) (x : Tensor) :
  use_flash_attention self = false ->
  training self = false \/
  (p (drop_weights self) = 0 /\ p (drop_output self) = 0) ->
  forward_output self rng x = forward_no_dropout self x.
Proof.
  intros Hf Hd. unfold forward_output, forward, forward_no_dropout, fmap.
  rewrite Hf. unfold Dropout_forward.
  assert (Hw : forall t m, dropout t (p (drop_weights self)) (training self) m
                           = t).
  { intros t m. destruct Hd as [->|[-> _]];
      [apply dropout_eval|apply dropout_zero]. }
  assert (Ho : forall t m, dropout t (p (drop_output self)) (training self) m
                           = t).
  { intros t m. destruct Hd as [->|[_ ->]];
      [apply dropout_eval|apply dropout_zero]. }
  destruct (project_qkv self x) as [[[q k] v]|]; cbn [bind]; [|reflexivity].
  destruct (attention_weights self q k); cbn [bind]; [|reflexivity].
  rewrite Hw.
  destruct (einsum_bhxy_bhyd_bhxd _ v); cbn [bind]; [|reflexivity].
  destruct (Rearrange_forward _ _ _); cbn [bind]; [|reflexivity].
  destruct (Linear_forward _ _); cbn [bind fst]; [|reflexivity].
  rewrite Ho. reflexivity.
Qed.

(** The fast path, when the rate it hands to the fused primitive is 0 and
    the output dropout does nothing. *)
Lemma forward_flash_no_dropout (hidden : nat) (self : SABlock) (rng : Rng)
    (x : Tensor) (b s : nat) :
  consistent hidden self -> shape x = [b; s; hidden] ->
  use_flash_attention self = true ->
  dropout_rate self = 0 ->
  training self = false \/ p (drop_output self) = 0 ->
  forward_output self rng x = forward_no_dropout self x.
Proof.
  intros C Hx Hf Hr Hd.
  unfold forward_output, forward, forward_no_dropout, fmap.
  rewrite Hf, Hr. unfold Dropout_forward.
  assert (Ho : forall t m, dropout t (p (drop_output self)) (training self) m
                           = t).
  { intros t m. destruct Hd as [->| ->];
      [apply dropout_eval|apply dropout_zero]. }
  destruct (project_qkv_ok hidden self x b s C Hx)
    as (q & k & v & -> & Hq & Hk & Hv).
  cbn [bind]. unfold attention_weights.
  destruct (scale_float _ _ C) as [r ->].
  rewrite (scaled_dot_product_attention_manual q k v r _ _ _ _ _ _ Hq Hk).
  destruct (einsum_blxd_blyd_blxy q k); cbn [bind mul_scale]; [|reflexivity].
  destruct (einsum_bhxy_bhyd_bhxd _ v); cbn [bind]; [|reflexivity].
  destruct (Rearrange_forward _ _ _); cbn [bind]; [|reflexivity].
  destruct (Linear_forward _ _); cbn [bind fst]; [|reflexivity].
  rewrite Ho. reflexivity.
Qed.

Lemma dropout_active (t : Tensor) (p : R) (mask : list nat -> bool) :
  p <> 0 -> p <> 1 -> numel (shape t) <> 0%nat ->
  dropout t p true mask =
  tabulate (shape t) (fun idx =>
    if mask idx then get t idx * (1 / (1 - p)) else 0).
Proof.
  intros H0 H1 Hn. unfold dropout. cbn [negb].
  destruct (Req_dec_T p 0); [contradiction|].
  destruct (Nat.eqb_spec (numel (shape t)) 0); [contradiction|].
  destruct (Req_dec_T p 1); [contradiction|]. reflexivity.
Qed.

(** [forward_no_dropout] reads neither flag and none of the dropout
    attributes. *)
Lemma forward_no_dropout_rate (hs nh : Z) (dr1 dr2 : R) (qb sa : bool)
    (d : Z) (init : InitValues) (f1 f2 m1 m2 : bool) (x : Tensor) :
  forward_no_dropout
    (train m1 (set_use_flash_attention f1 (new_block hs nh dr1 qb sa d init)))
    x =
  forward_no_dropout
    (train m2 (set_use_flash_attention f2 (new_block hs nh dr2 qb sa d init)))
    x.
Proof. reflexivity. Qed.

(** In evaluation mode the manual path gives the same output whatever the
    dropout rate the block was built with. *)
Lemma forward_manual_eval_rate (hs nh : Z) (dr1 dr2 : R) (qb sa : bool)
    (d : Z) (init : InitValues) (rng1 rng2 : Rng) (x : Tensor) :
  forward_output
    (eval_ (set_use_flash_attention false (new_block hs nh dr1 qb sa d init)))
    rng1 x =
  forward_output
    (eval_ (set_use_flash_attention false (new_block hs nh dr2 qb sa d init)))
    rng2 x.
Proof.
  rewrite !forward_manual_no_dropout by (try reflexivity; left; reflexivity).
  apply forward_no_dropout_rate.
Qed.

(* ------------------------------------------------------------------ *)
(** ** A block of one head on one feature *)

(** Evaluation of the embedding on given tensors: everything but the
    arithmetic of the entries and the tests on real numbers is computed. *)
Ltac run_forward :=
  cbv -[Rplus Rmult Rminus Rdiv Rinv Ropp exp Rmax Rpower IZR
        Req_dec_T Rle_dec Rlt_dec weights_mask output_mask dropout].

Ltac softmax_of_one :=
  repeat match goal with
         | |- context [exp (?a - ?a)] => replace (a - a) with 0 by lra
         end;
  rewrite ?exp_0.

Lemma one_head_flash_half (rng : Rng) :
  forward_output
    (eval_ (set_use_flash_attention true
              (new_block 1 1 (1 / 2) false false 1 ones_init)))
    rng x111 =
  Ok (mkTensor [1; 1; 1]%nat
        [if weights_mask rng [0; 0; 0; 0]%nat then 2 else 0]).
Proof.
  run_forward.
  rewrite dropout_active by (try lra; discriminate).
  run_forward. rewrite dropout_eval. run_forward.
  do 3 f_equal.
  destruct (weights_mask rng [0; 0; 0; 0]%nat); softmax_of_one; lra.
Qed.

Lemma one_head_flash_zero (rng : Rng) :
  forward_output
    (eval_ (set_use_flash_attention true
              (new_block 1 1 0 false false 1 ones_init)))
    rng x111 =
  Ok (mkTensor [1; 1; 1]%nat [1]).
Proof.
  run_forward. rewrite dropout_zero.
  run_forward. rewrite dropout_eval. run_forward.
  do 3 f_equal. softmax_of_one. lra.
Qed.

Lemma one_head_manual_eval (dr : R) (rng : Rng) :
  forward_output
    (eval_ (set_use_flash_attention false
              (new_block 1 1 dr false false 1 ones_init)))
    rng x111 =
  Ok (mkTensor [1; 1; 1]%nat [1]).
Proof.
  rewrite forward_manual_no_dropout by (try reflexivity; left; reflexivity).
  run_forward. do 3 f_equal. softmax_of_one. lra.
Qed.

Lemma one_head_init (dr : R) (sa : bool) :
  0 <= dr <= 1 ->
  SABlock_init 1 1 dr false sa None ones_init =
  Ok (new_block 1 1 dr false sa 1 ones_init).
Proof.
  intros H.
  apply (SABlock_init_value 1 1 dr false sa None ones_init H);
    reflexivity || lia.
Qed.

(** The scenario of the specification: 8 features on 2 heads, no dropout,
    one sequence of 3 positions. *)
Lemma scenario_init (dr : R) (sa : bool) :
  0 <= dr <= 1 ->
  SABlock_init 8 2 dr false sa None ones_init =
  Ok (new_block 8 2 dr false sa 4 ones_init).
Proof.
  intros H.
  apply (SABlock_init_value 8 2 dr false sa None ones_init H);
    reflexivity || lia.
Qed.

Lemma unit_interval_0 : 0 <= 0 <= 1.
Proof. lra. Qed.

Lemma unit_interval_half : 0 <= 1 / 2 <= 1.
Proof. lra. Qed.

Lemma forward_output_ok (self self' : SABlock) (rng : Rng) (x y : Tensor) :
  forward self rng x = Ok (y, self') -> forward_output self rng x = Ok y.
Proof. intros H. unfold forward_output, fmap. rewrite H. reflexivity. Qed.

(* ------------------------------------------------------------------ *)
(** ** The embedding on small inputs *)

(** Python's [%] and [//] take the sign of the divisor and round down. *)
Example mod_negative_dividend : mod_ (-7) 3 = Ok 2%Z.
Proof. reflexivity. Qed.

Example mod_negative_divisor : mod_ 7 (-3) = Ok (-2)%Z.
Proof. reflexivity. Qed.

Example floordiv_rounds_down : floordiv (-7) 3 = Ok (-3)%Z.
Proof. reflexivity. Qed.

(** "b h (qkv l d) -> qkv b l h d" on one batch of two positions with six
    features, split over two heads of dimension one. *)
Example split_two_heads :
  Rearrange_forward einops (Rearrange_split 3 2)
    (mkTensor [1; 2; 6]%nat [0; 1; 2; 3; 4; 5; 6; 7; 8; 9; 10; 11]) =
  Ok (mkTensor [3; 1; 2; 2; 1]%nat [0; 6; 1; 7; 2; 8; 3; 9; 4; 10; 5; 11]).
Proof. run_forward. reflexivity. Qed.

(** "b h l d -> b l (h d)" on two heads, two positions, dimension one. *)
Example merge_two_heads :
  Rearrange_forward einops Rearrange_merge
    (mkTensor [1; 2; 2; 1]%nat [0; 1; 10; 11]) =
  Ok (mkTensor [1; 2; 2]%nat [0; 10; 1; 11]).
Proof. run_forward. reflexivity. Qed.

(** The packed projection on one position of two features, rows of the
    weight [[1 0], [0 1], [1 1]], no bias. *)
Example linear_rows :
  Linear_forward
    (mkLinear 2 3 (mkTensor [3; 2]%nat [1; 0; 0; 1; 1; 1]) None)
    (mkTensor [1; 1; 2]%nat [5; 7]) =
  Ok (mkTensor [1; 1; 3]%nat
        [5 * 1 + (7 * 0 + 0) + 0; 5 * 0 + (7 * 1 + 0) + 0;
         5 * 1 + (7 * 1 + 0) + 0]).
Proof. run_forward. reflexivity. Qed.

(** A wrong feature dimension stops in the projection, a wrong rank in the
    split, with the error of the einops at hand. *)
Example wrong_feature_dimension :
  forward (new_block 8 2 0 false false 4 ones_init) keep_all
    (zeros [1; 3; 7]%nat) = Err RuntimeError.
Proof. reflexivity. Qed.

Example wrong_rank :
  forward (new_block 8 2 0 false false 4 ones_init) keep_all
    (zeros [3; 8]%nat) = Err (rank_error einops).
Proof. reflexivity. Qed.

(** The constructor has no check on the sign of [num_heads]: a negative
    number of heads that divides the hidden size gets through it, and every
    call on the block then fails in the split. This is why the statements
    on [forward] below ask for a positive number of heads. *)
Lemma negative_heads_construct :
  exists blk, SABlock_init 4 (-2) 0 false false None ones_init = Ok blk.
Proof.
  unfold SABlock_init.
  rewrite (proj2 (in_unit_interval_true 0) unit_interval_0).
  cbn. rewrite (Dropout_new_ok 0 unit_interval_0). cbn.
  eexists. reflexivity.
Qed.

Lemma negative_heads_forward_fails (hs nh : Z) (dr : R) (qb sa : bool)
    (dh : option Z) (init : InitValues) (blk : SABlock) (fl mode : bool)
    (rng : Rng) (x : Tensor) :
  SABlock_init hs nh dr qb sa dh init = Ok blk -> (nh < 0)%Z ->
  exists e,
    forward (train mode (set_use_flash_attention fl blk)) rng x = Err e.
Proof.
  intros Hinit Hnh. apply SABlock_init_inv in Hinit.
  destruct Hinit as (_ & _ & _ & _ & _ & _ & _ & _ & _ & _ & _ & _ & Hs & _).
  unfold forward, project_qkv. cbn [qkv input_rearrange train
    set_use_flash_attention].
  destruct (Linear_forward (qkv blk) x) as [y|e]; cbn [bind];
    [|eexists; reflexivity].
  rewrite Hs. cbn [Rearrange_forward].
  destruct (shape y) as [|b [|s [|n [|? ?]]]]; cbn [bind];
    try (eexists; reflexivity).
  unfold mod_. destruct (3 * nh =? 0)%Z; cbn [bind];
    [eexists; reflexivity|].
  destruct (negb _); [eexists; reflexivity|].
  destruct (Z.leb_spec nh 0); [|lia].
  simpl. eexists. reflexivity.
Qed.

(* ------------------------------------------------------------------ *)
(** ** The claims *)

(** C1 (the code departs from the claim). The claim has [forward] store the
    attention weights, of shape [[batch; heads; seq; seq]], in [att_mat]
    when the block was built with [save_attn=True]. [forward] assigns no
    attribute: on the scenario of the specification, built with
    [save_attn=True] and run on the manual path, the call returns and
    [att_mat] is still the empty tensor of [__init__], of shape [[0]]. *)
Theorem save_attn_snapshot_not_retained :
  exists blk y blk',
    SABlock_init 8 2 0 false true None ones_init = Ok blk /\
    forward blk keep_all (zeros [1; 3; 8]%nat) = Ok (y, blk') /\
    save_attn blk' = true /\ use_flash_attention blk' = false /\
    att_mat blk' = Torch.empty /\
    shape (att_mat blk') <> [1; 2; 3; 3]%nat.
Proof.
  pose proof (scenario_init 0 true unit_interval_0) as Hinit.
  pose proof (SABlock_init_consistent _ _ _ _ _ _ _ _ Hinit eq_refl) as C.
  destruct (forward_ok _ _ keep_all (zeros [1; 3; 8]%nat) 1 3 C eq_refl)
    as (y & Hy & _).
  exists (new_block 8 2 0 false true 4 ones_init), y,
         (new_block 8 2 0 false true 4 ones_init).
  repeat split; try assumption. simpl. discriminate.
Qed.

(** C2 (counterexample). With [hidden_size=10], [num_heads=3] and an
    explicit [dim_head=4] the constructor raises the [ValueError] of the
    divisibility check: supplying the head dimension does not lift it. *)
Lemma explicit_dim_head_still_checked :
  SABlock_init 10 3 0 false false (Some 4%Z) ones_init =
  Err (ValueError "hidden size should be divisible by num_heads.") /\
  InvalidConfiguration
    (ValueError "hidden size should be divisible by num_heads.").
Proof.
  split.
  - apply SABlock_init_indivisible; [lra|lia|discriminate].
  - eexists. reflexivity.
Qed.

(** C2 (amended). The constructor raises [ValueError] exactly when the
    dropout rate is outside [[0,1]] or the number of heads is not zero and
    does not divide the hidden size, whether or not a head dimension is
    supplied; with [hidden_size=10] and [num_heads=3] it does so for every
    [dim_head]. *)
Theorem init_invalid_configuration_iff (hs nh : Z) (dr : R) (qb sa : bool)
    (dh : option Z) (init : InitValues) :
  ((exists e, SABlock_init hs nh dr qb sa dh init = Err e /\
              InvalidConfiguration e) <->
   (~ (0 <= dr <= 1) \/ (nh <> 0%Z /\ (hs mod nh)%Z <> 0%Z))) /\
  exists e, SABlock_init 10 3 0 qb sa dh init = Err e /\
            InvalidConfiguration e.
Proof.
  split.
  - split.
    + intros (e & He & msg & ->).
      destruct (Rle_dec 0 dr) as [H0|H0]; [|left; lra].
      destruct (Rle_dec dr 1) as [H1|H1]; [|left; lra].
      right. assert (Hdr : 0 <= dr <= 1) by lra.
      destruct (Z.eq_dec nh 0) as [->|Hnh].
      { rewrite SABlock_init_zero_heads in He by exact Hdr. discriminate. }
      split; [exact Hnh|]. intros Hmod.
      destruct (SABlock_init_divisible hs nh dr qb sa dh init Hdr Hnh Hmod)
        as [[blk Hb]|[Hb|Hb]]; rewrite Hb in He; discriminate.
    + intros [Hdr|[Hnh Hmod]].
      * eexists. split; [apply SABlock_init_dropout_error, Hdr|].
        eexists. reflexivity.
      * destruct (Rle_dec 0 dr) as [H0|H0];
          [destruct (Rle_dec dr 1) as [H1|H1]|].
        -- eexists. split; [apply SABlock_init_indivisible; [lra|auto..]|].
           eexists. reflexivity.
        -- eexists. split; [apply SABlock_init_dropout_error; lra|].
           eexists. reflexivity.
        -- eexists. split; [apply SABlock_init_dropout_error; lra|].
           eexists. reflexivity.
  - eexists. split; [apply SABlock_init_indivisible; [lra|lia|discriminate]|].
    eexists. reflexivity.
Qed.

(** C3. On a block built with a dropout rate of 0 and a positive number of
    heads, and an input of shape [[b; s; hidden_size]], the fast path and the
    manual path return, and return the same output, in either mode and
    whatever masks the two calls draw. *)
Theorem flash_manual_same_output (hs nh : Z) (qb sa : bool) (dh : option Z)
    (init : InitValues) (blk : SABlock) (mode : bool) (rng1 rng2 : Rng)
    (x : Tensor) (b s : nat) :
  SABlock_init hs nh 0 qb sa dh init = Ok blk -> (0 < nh)%Z ->
  shape x = [b; s; Z.to_nat hs] ->
  exists y,
    forward_output (train mode (set_use_flash_attention true blk)) rng1 x
      = Ok y /\
    forward_output (train mode (set_use_flash_attention false blk)) rng2 x
      = Ok y.
Proof.
  intros Hinit Hnh Hx.
  pose proof (SABlock_init_consistent _ _ _ _ _ _ _ _ Hinit Hnh) as C.
  apply SABlock_init_inv in Hinit.
  destruct Hinit as (_ & _ & _ & _ & _ & _ & _ & _ & _ & _ & _ & _ & _ & _ &
                     Ho & Hw & Hr & _).
  set (fast := train mode (set_use_flash_attention true blk)).
  set (manual := train mode (set_use_flash_attention false blk)).
  assert (Cf : consistent (Z.to_nat hs) fast)
    by apply consistent_train, consistent_set_use_flash_attention, C.
  destruct (forward_ok _ _ rng1 x b s Cf Hx) as (y & Hy & _).
  exists y. split; [apply (forward_output_ok _ _ _ _ _ Hy)|].
  rewrite <- (forward_output_ok _ _ _ _ _ Hy).
  rewrite (forward_flash_no_dropout _ fast rng1 x b s Cf Hx eq_refl Hr
             (or_intror Ho)).
  rewrite (forward_manual_no_dropout manual rng2 x eq_refl
             (or_intror (conj Hw Ho))).
  reflexivity.
Qed.

(** C4 (the code departs from the claim). In evaluation mode dropout is to
    do nothing on either path. The fast path hands [dropout_rate] to the
    fused primitive whatever the mode: on the block of one head on one
    feature built with a rate of 1/2, in evaluation mode, the single
    attention weight is zeroed or doubled, so the output is 0 or 2 for every
    mask, where the same block built with a rate of 0 gives 1; the manual
    path gives 1 for both. *)
Theorem flash_path_dropout_in_eval (rng rng0 : Rng) :
  exists blk blk0 y y0,
    SABlock_init 1 1 (1 / 2) false false None ones_init = Ok blk /\
    SABlock_init 1 1 0 false false None ones_init = Ok blk0 /\
    forward_output (eval_ (set_use_flash_attention true blk)) rng x111
      = Ok y /\
    forward_output (eval_ (set_use_flash_attention true blk0)) rng0 x111
      = Ok y0 /\
    y <> y0 /\
    forward_output (eval_ (set_use_flash_attention false blk)) rng x111
      = Ok y0 /\
    forward_output (eval_ (set_use_flash_attention false blk0)) rng0 x111
      = Ok y0.
Proof.
  do 4 eexists.
  split; [apply one_head_init, unit_interval_half|].
  split; [apply one_head_init, unit_interval_0|].
  split; [apply one_head_flash_half|].
  split; [apply one_head_flash_zero|].
  split; [|split; apply one_head_manual_eval].
  intros H. injection H as H.
  destruct (weights_mask rng [0; 0; 0; 0]%nat); lra.
Qed.

(** C5. On a block built with a positive number of heads, a call on an
    input of shape [[b; s; hidden_size]] returns an output of that shape, on
    either path and in either mode. *)
Theorem forward_output_shape (hs nh : Z) (dr : R) (qb sa : bool)
    (dh : option Z) (init : InitValues) (blk : SABlock) (fl mode : bool)
    (rng : Rng) (x : Tensor) (b s : nat) :
  SABlock_init hs nh dr qb sa dh init = Ok blk -> (0 < nh)%Z ->
  shape x = [b; s; Z.to_nat hs] ->
  exists y self',
    forward (train mode (set_use_flash_attention fl blk)) rng x
      = Ok (y, self') /\
    shape y = shape x /\ well_formed y.
Proof.
  intros Hinit Hnh Hx.
  pose proof (SABlock_init_consistent _ _ _ _ _ _ _ _ Hinit Hnh) as C.
  destruct (forward_ok (Z.to_nat hs)
              (train mode (set_use_flash_attention fl blk)) rng x b s)
    as (y & Hy & Hs & Hwf).
  - apply consistent_train, consistent_set_use_flash_attention, C.
  - exact Hx.
  - exists y. eexists. split; [exact Hy|]. rewrite Hx. split; assumption.
Qed.

(** C6. On a block built with a dropout rate of 0, a call does not depend
    on the masks it draws, and a second call on the block the first one
    returned, on the same input, returns the same output and block. *)
Theorem forward_deterministic (hs nh : Z) (qb sa : bool) (dh : option Z)
    (init : InitValues) (blk : SABlock) (fl mode : bool) (rng1 rng2 : Rng)
    (x : Tensor) :
  SABlock_init hs nh 0 qb sa dh init = Ok blk ->
  forward (train mode (set_use_flash_attention fl blk)) rng1 x =
  forward (train mode (set_use_flash_attention fl blk)) rng2 x /\
  forall y self',
    forward (train mode (set_use_flash_attention fl blk)) rng1 x
      = Ok (y, self') ->
    forward self' rng2 x = Ok (y, self').
Proof.
  intros Hinit. apply SABlock_init_inv in Hinit.
  destruct Hinit as (_ & _ & _ & _ & _ & _ & _ & _ & _ & _ & _ & _ & _ & _ &
                     Ho & Hw & Hr & _).
  assert (E : forward (train mode (set_use_flash_attention fl blk)) rng1 x =
              forward (train mode (set_use_flash_attention fl blk)) rng2 x)
    by (apply forward_rng_irrelevant; assumption).
  split; [exact E|].
  intros y self' H. pose proof (forward_keeps_block _ _ _ _ _ H) as ->.
  rewrite <- E. exact H.
Qed.

(** C7. On the manual path, for a block built with a positive number of
    heads and an input of shape [[b; s; hidden_size]], the attention weights
    (after the softmax, before dropout) have shape [[b; heads; s; s]], and
    the weights of every (batch, head, query) sum to 1 over the keys. *)
Theorem attention_rows_sum_to_one (hs nh : Z) (dr : R) (qb sa : bool)
    (dh : option Z) (init : InitValues) (blk : SABlock) (mode : bool)
    (x : Tensor) (b s : nat) :
  SABlock_init hs nh dr qb sa dh init = Ok blk -> (0 < nh)%Z ->
  shape x = [b; s; Z.to_nat hs] ->
  exists q k v att,
    project_qkv (train mode (set_use_flash_attention false blk)) x
      = Ok (q, k, v) /\
    attention_weights (train mode (set_use_flash_attention false blk)) q k
      = Ok att /\
    shape att = [b; Z.to_nat nh; s; s] /\
    forall ib ih ix,
      (ib < b)%nat -> (ih < Z.to_nat nh)%nat -> (ix < s)%nat ->
      row_sum att ib ih ix = 1.
Proof.
  intros Hinit Hnh Hx.
  pose proof (SABlock_init_consistent _ _ _ _ _ _ _ _ Hinit Hnh) as C.
  apply SABlock_init_inv in Hinit.
  destruct Hinit as (_ & _ & _ & _ & _ & _ & Enh & _).
  set (self := train mode (set_use_flash_attention false blk)).
  assert (Cs : consistent (Z.to_nat hs) self)
    by apply consistent_train, consistent_set_use_flash_attention, C.
  destruct (project_qkv_ok _ self x b s Cs Hx)
    as (q & k & v & Hp & Hq & Hk & _).
  destruct (attention_weights_ok _ self q k _ _ _ _ Cs Hq Hk)
    as (a & Ha & Hsa).
  change (num_heads self) with (num_heads blk) in *. rewrite Enh in *.
  exists q, k, v, (softmax a). repeat split; try assumption.
  intros ib ih ix Hb Hh Hi.
  apply (softmax_row_sum a b (Z.to_nat nh) s s); try assumption. lia.
Qed.

(** C8. The constructor raises the [ValueError] of the dropout check for
    every rate outside [[0,1]], whatever the other arguments; for a rate
    inside, a positive hidden size, a positive number of heads dividing it
    and a head dimension that is positive when supplied, it returns a
    block. *)
Theorem dropout_rate_validation (hs nh : Z) (dr : R) (qb sa : bool)
    (dh : option Z) (init : InitValues) :
  (~ (0 <= dr <= 1) ->
   SABlock_init hs nh dr qb sa dh init =
   Err (ValueError "dropout_rate should be between 0 and 1.")) /\
  (0 <= dr <= 1 ->
   (0 < hs)%Z -> (0 < nh)%Z -> (hs mod nh = 0)%Z ->
   (forall d, dh = Some d -> (0 < d)%Z) ->
   exists blk, SABlock_init hs nh dr qb sa dh init = Ok blk).
Proof.
  split.
  - apply SABlock_init_dropout_error.
  - intros Hdr Hhs Hnh Hmod Hd.
    apply SABlock_init_ok; try assumption; [lia|].
    destruct dh as [d|].
    + apply Hd. reflexivity.
    + apply default_head_dim_pos; assumption.
Qed.

(** C9. On a block built with a positive number of heads, a call on an
    input whose rank is not 3 or whose last dimension is not [hidden_size]
    raises one of the shape errors: torch's [RuntimeError] from the packed
    projection, or the rank error of the split ([KeyError] with einops
    0.7.0 and later, [EinopsError] with earlier versions); on an input of
    shape [[b; s; hidden_size]] it raises nothing and returns. This holds
    with either kind of einops. *)
Theorem forward_shape_errors (hs nh : Z) (dr : R) (qb sa : bool)
    (dh : option Z) (init : InitValues) (blk : SABlock) (fl mode : bool)
    (rng : Rng) (x : Tensor) :
  SABlock_init hs nh dr qb sa dh init = Ok blk -> (0 < nh)%Z ->
  (length (shape x) <> 3%nat \/ last (shape x) 0%nat <> Z.to_nat hs ->
   exists e,
     forward (train mode (set_use_flash_attention fl blk)) rng x = Err e /\
     ShapeMismatch e) /\
  (forall b s, shape x = [b; s; Z.to_nat hs] ->
   exists y self',
     forward (train mode (set_use_flash_attention fl blk)) rng x
       = Ok (y, self')).
Proof.
  intros Hinit Hnh.
  pose proof (SABlock_init_consistent _ _ _ _ _ _ _ _ Hinit Hnh) as C.
  set (self := train mode (set_use_flash_attention fl blk)).
  assert (Cs : consistent (Z.to_nat hs) self)
    by apply consistent_train, consistent_set_use_flash_attention, C.
  split.
  - intros Hbad.
    destruct (Nat.eq_dec (length (shape x)) 3) as [Hrank|Hrank].
    + destruct Hbad as [Hbad|Hbad]; [contradiction|].
      exists RuntimeError. split; [|left; reflexivity].
      apply (forward_bad_last (Z.to_nat hs)); [apply (qkv_in _ _ Cs)|].
      left. destruct (shape x) as [|a [|c [|d [|? ?]]]]; try discriminate.
      exact Hbad.
    + apply (forward_bad_rank self rng x 3 (num_heads self));
        [apply (split_layer _ _ Cs)|exact Hrank].
  - intros b s Hx.
    destruct (forward_ok _ self rng x b s Cs Hx) as (y & Hy & _).
    exists y, self. exact Hy.
Qed.

(** C10. With [num_heads=0] and a dropout rate in [[0,1]] the constructor
    raises [ZeroDivisionError], from the modulus, for every hidden size;
    this is not a [ValueError]. With a rate outside [[0,1]] the dropout
    check, which runs first, raises its [ValueError] instead. *)
Theorem zero_heads_division_error (hs : Z) (dr : R) (qb sa : bool)
    (dh : option Z) (init : InitValues) :
  (0 <= dr <= 1 ->
   SABlock_init hs 0 dr qb sa dh init = Err ZeroDivisionError /\
   mod_ hs 0 = Err ZeroDivisionError /\
   ~ InvalidConfiguration ZeroDivisionError) /\
  (~ (0 <= dr <= 1) ->
   SABlock_init hs 0 dr qb sa dh init =
   Err (ValueError "dropout_rate should be between 0 and 1.")).
Proof.
  split.
  - intros Hdr. split; [apply SABlock_init_zero_heads, Hdr|].
    split; [reflexivity|]. intros [msg H]. discriminate H.
  - apply SABlock_init_dropout_error.
Qed.

(* ------------------------------------------------------------------ *)
(** ** Further properties of the constructor *)

Lemma SABlock_init_inner_dim (hs nh : Z) (dr : R) (qb sa : bool)
    (dh : option Z) (init : InitValues) (blk : SABlock) :
  SABlock_init hs nh dr qb sa dh init = Ok blk ->
  inner_dim blk = (dim_head blk * num_heads blk)%Z.
Proof.
  unfold SABlock_init, mod_, floordiv.
  destruct (in_unit_interval dr) eqn:Hdr; simpl; [|discriminate].
  apply in_unit_interval_true in Hdr.
  destruct (Z.eqb_spec nh 0) as [|Hnh]; simpl; [discriminate|].
  destruct (Z.eqb_spec (hs mod nh) 0) as [Hmod|]; simpl; [|discriminate].
  destruct dh as [d|]; simpl;
    (destruct (Linear_new _ hs true _ _) as [op|]; simpl; [|discriminate]);
    (destruct (Linear_new hs _ qb _ _) as [qk|]; simpl; [|discriminate]);
    rewrite (Dropout_new_ok dr Hdr); simpl;
    (destruct (pow_neg_half _) as [sc|]; simpl; [|discriminate]);
    intros H; injection H as <-; reflexivity.
Qed.

(** X1. The constructor returns a block exactly when the dropout rate is
    in [[0,1]], the number of heads is not zero and divides the hidden size,
    the hidden size and the inner dimension are not negative, and the head
    dimension is not zero. *)
Theorem init_succeeds_iff (hs nh : Z) (dr : R) (qb sa : bool)
    (dh : option Z) (init : InitValues) :
  (exists blk, SABlock_init hs nh dr qb sa dh init = Ok blk) <->
  (0 <= dr <= 1 /\ nh <> 0%Z /\ (hs mod nh = 0)%Z /\ (0 <= hs)%Z /\
   (0 <= head_dim hs nh dh * nh)%Z /\ head_dim hs nh dh <> 0%Z).
Proof.
  split.
  - intros [blk H]. apply SABlock_init_inv in H. tauto.
  - intros (Hdr & Hnh & Hmod & Hhs & Hin & Hd).
    pose proof Hdr as Hb. apply in_unit_interval_true in Hb.
    unfold SABlock_init, mod_, floordiv. rewrite Hb. simpl.
    destruct (Z.eqb_spec nh 0); [contradiction|]. simpl.
    rewrite Hmod. simpl.
    assert (Hm : match dh with
                 | Some d => Ok d
                 | None => Ok (hs / nh)%Z
                 end = Ok (head_dim hs nh dh)) by (destruct dh; reflexivity).
    rewrite Hm. simpl.
    rewrite Linear_new_ok by lia. simpl.
    rewrite Linear_new_ok by lia. simpl.
    rewrite (Dropout_new_ok dr Hdr). simpl.
    destruct (pow_neg_half (head_dim hs nh dh)) as [sc|e] eqn:Hsc; simpl.
    + eexists. reflexivity.
    + exfalso. unfold pow_neg_half in Hsc.
      destruct (Z.eqb_spec (head_dim hs nh dh) 0); [contradiction|].
      destruct (0 <? head_dim hs nh dh)%Z; discriminate.
Qed.

(** X2. With the default head dimension the inner dimension is the hidden
    size, for every sign of the number of heads: the output projection is
    square and the packed projection maps [hidden_size] features to
    [3 * hidden_size]. *)
Theorem default_inner_dim (hs nh : Z) (dr : R) (qb sa : bool)
    (init : InitValues) (blk : SABlock) :
  SABlock_init hs nh dr qb sa None init = Ok blk ->
  inner_dim blk = hs /\
  in_features (out_proj blk) = Z.to_nat hs /\
  out_features (out_proj blk) = Z.to_nat hs /\
  in_features (qkv blk) = Z.to_nat hs /\
  out_features (qkv blk) = (3 * Z.to_nat hs)%nat.
Proof.
  intros H. pose proof (SABlock_init_inner_dim _ _ _ _ _ _ _ _ H) as Hi.
  apply SABlock_init_inv in H.
  destruct H as (_ & Hnh & Hmod & Hhs & _ & _ & E1 & E2 & E3 & E4 & E5 & E6 & _).
  assert (Hprod : (head_dim hs nh None * nh = hs)%Z).
  { simpl. pose proof (Z.div_mod hs nh Hnh) as Hdm.
    rewrite Hmod in Hdm. lia. }
  rewrite E1, E2, Hprod in Hi. rewrite Hprod in E4, E5.
  repeat split; try assumption.
  rewrite E4, Z2Nat.inj_mul by lia. simpl (Z.to_nat 3). lia.
Qed.

(** X3. A head dimension of zero gets past both checks and the allocation
    of the layers, and the constructor then raises [ZeroDivisionError] from
    [dim_head ** -0.5]; a hidden size of 0 with the default head dimension
    is such a case. *)
Theorem zero_head_dim_division_error (hs nh : Z) (dr : R) (qb sa : bool)
    (dh : option Z) (init : InitValues) :
  0 <= dr <= 1 -> nh <> 0%Z -> (hs mod nh = 0)%Z -> (0 <= hs)%Z ->
  head_dim hs nh dh = 0%Z ->
  SABlock_init hs nh dr qb sa dh init = Err ZeroDivisionError.
Proof.
  intros Hdr Hnh Hmod Hhs Hd.
  pose proof Hdr as Hb. apply in_unit_interval_true in Hb.
  unfold SABlock_init, mod_, floordiv. rewrite Hb. simpl.
  destruct (Z.eqb_spec nh 0); [contradiction|]. simpl.
  rewrite Hmod. simpl.
  assert (Hm : match dh with
               | Some d => Ok d
               | None => Ok (hs / nh)%Z
               end = Ok 0%Z) by (destruct dh; simpl in Hd; rewrite Hd; reflexivity).
  rewrite Hm. simpl.
  rewrite Linear_new_ok by lia. simpl.
  rewrite Linear_new_ok by lia. simpl.
  rewrite (Dropout_new_ok dr Hdr). reflexivity.
Qed.

(** X4. On a block built with a positive number of heads, [scale] is a
    positive float whose square is the inverse of the head dimension. *)
Theorem scale_squared (hs nh : Z) (dr : R) (qb sa : bool)
    (dh : option Z) (init : InitValues) (blk : SABlock) :
  SABlock_init hs nh dr qb sa dh init = Ok blk -> (0 < nh)%Z ->
  exists r, scale blk = PyFloat r /\ 0 < r /\
            r * r * IZR (dim_head blk) = 1.
Proof.
  intros H Hnh.
  pose proof (SABlock_init_consistent _ _ _ _ _ _ _ _ H Hnh) as C.
  apply SABlock_init_inv in H.
  destruct H as (_ & _ & _ & _ & _ & _ & _ & E2 & _ & _ & _ & _ & _ & _ &
                 _ & _ & _ & Hsc & _).
  pose proof (head_pos _ _ C) as Hd. rewrite E2 in Hd.
  rewrite (pow_neg_half_pos _ Hd) in Hsc. injection Hsc as Hsc.
  exists (Rpower (IZR (head_dim hs nh dh)) (- (1 / 2))).
  split; [symmetry; exact Hsc|]. rewrite E2.
  assert (Hpos : 0 < IZR (head_dim hs nh dh)) by (apply IZR_lt; exact Hd).
  split.
  - unfold Rpower. apply exp_pos.
  - rewrite <- Rpower_plus.
    replace (- (1 / 2) + - (1 / 2)) with (Ropp 1) by lra.
    rewrite Rpower_Ropp, Rpower_1 by exact Hpos.
    apply Rinv_l. lra.
Qed.

(* ------------------------------------------------------------------ *)
(** ** Further properties of the forward pass *)

(** X5. The constructor does not look at the sign of [num_heads]: a block
    built with a negative number of heads fails every call of [forward], on
    either path and with either kind of einops, with one of the shape
    errors: torch's [RuntimeError] (from the packed projection, or from the
    reshape of the split on a negative length), or an error of the split
    itself: [EinopsError] on a length it cannot divide and, on a wrong
    rank, [KeyError] (einops 0.7.0 and later) or [EinopsError] (earlier). *)
Theorem negative_heads_block_unusable (hs nh : Z) (dr : R) (qb sa : bool)
    (dh : option Z) (init : InitValues) (blk : SABlock) (fl mode : bool)
    (rng : Rng) (x : Tensor) :
  SABlock_init hs nh dr qb sa dh init = Ok blk -> (nh < 0)%Z ->
  exists e,
    forward (train mode (set_use_flash_attention fl blk)) rng x = Err e /\
    ShapeMismatch e.
Proof.
  intros Hinit Hnh. apply SABlock_init_inv in Hinit.
  destruct Hinit as (_ & _ & _ & _ & _ & _ & _ & _ & _ & _ & _ & _ & Hs & _).
  unfold forward, project_qkv. cbn [qkv input_rearrange train
    set_use_flash_attention].
  destruct (Linear_forward (qkv blk) x) as [y|e] eqn:Hy; cbn [bind].
  - rewrite Hs. cbn [Rearrange_forward].
    destruct (shape y) as [|b [|s [|n [|? ?]]]]; cbn [bind];
      try (exists (rank_error einops);
           split; [reflexivity|apply ShapeMismatch_rank_error]).
    unfold mod_. destruct (Z.eqb_spec (3 * nh) 0); [lia|]. cbn [bind].
    destruct (negb _);
      [exists EinopsError; split; [reflexivity|right; left; reflexivity]|].
    destruct (Z.leb_spec nh 0); [|lia].
    exists RuntimeError. split; [|left; reflexivity].
    simpl. reflexivity.
  - apply Linear_forward_error in Hy. subst e.
    exists RuntimeError. split; [reflexivity|left; reflexivity].
Qed.

(** The fused primitive with any dropout rate, against lines 88-92 run in
    training mode. *)
Lemma scaled_dot_product_attention_training (q k v : Tensor) (r p : R)
    (mask : list nat -> bool) (b l x y d : nat) :
  shape q = [b; l; x; d] -> shape k = [b; l; y; d] ->
  scaled_dot_product_attention q k v (PyFloat r) p mask =
  (a <- einsum_blxd_blyd_blxy q k ;;
   einsum_bhxy_bhyd_bhxd (dropout (softmax (mul_scalar a r)) p true mask) v).
Proof.
  intros Hq Hk. unfold scaled_dot_product_attention.
  rewrite Hq, Hk. cbn [rev app].
  pose proof (matmul_transpose q k b l x y d Hq Hk) as Hmt.
  unfold einsum_blxd_blyd_blxy in *. rewrite Hq, Hk, !Nat.eqb_refl in *.
  cbn [andb] in *.
  destruct (transpose_last2 k) as [kt|]; cbn [bind] in *; [|discriminate].
  rewrite Hmt. cbn [bind]. unfold mul_scalar at 1. cbn [shape tabulate].
  rewrite add_zero_bias. cbn [bind]. reflexivity.
Qed.

(** X6. In training mode the two paths agree for every dropout rate: on a
    block built with a positive number of heads and an input of shape
    [[b; s; hidden_size]], calls that draw the same masks return the same
    output on the fast and on the manual path. *)
Theorem training_paths_agree (hs nh : Z) (dr : R) (qb sa : bool)
    (dh : option Z) (init : InitValues) (blk : SABlock) (rng : Rng)
    (x : Tensor) (b s : nat) :
  SABlock_init hs nh dr qb sa dh init = Ok blk -> (0 < nh)%Z ->
  shape x = [b; s; Z.to_nat hs] ->
  exists y,
    forward_output (train true (set_use_flash_attention true blk)) rng x
      = Ok y /\
    forward_output (train true (set_use_flash_attention false blk)) rng x
      = Ok y.
Proof.
  intros Hinit Hnh Hx.
  pose proof (SABlock_init_consistent _ _ _ _ _ _ _ _ Hinit Hnh) as C.
  apply SABlock_init_inv in Hinit.
  destruct Hinit as (_ & _ & _ & _ & _ & _ & _ & _ & _ & _ & _ & _ & _ & _ &
                     Ho & Hw & Hr & _).
  set (fast := train true (set_use_flash_attention true blk)).
  set (manual := train true (set_use_flash_attention false blk)).
  assert (Cf : consistent (Z.to_nat hs) fast)
    by apply consistent_train, consistent_set_use_flash_attention, C.
  destruct (forward_ok _ _ rng x b s Cf Hx) as (y & Hy & _).
  exists y. split; [apply (forward_output_ok _ _ _ _ _ Hy)|].
  rewrite <- (forward_output_ok _ _ _ _ _ Hy).
  unfold forward_output, forward, fmap.
  change (project_qkv manual x) with (project_qkv fast x).
  destruct (project_qkv_ok _ fast x b s Cf Hx)
    as (q & k & v & -> & Hq & Hk & Hv).
  cbn [bind]. unfold fast at 1 3. unfold manual at 1.
  cbn [use_flash_attention train set_use_flash_attention].
  unfold attention_weights, Dropout_forward.
  change (scale manual) with (scale fast).
  change (drop_weights manual) with (drop_weights blk).
  change (dropout_rate fast) with (dropout_rate blk).
  change (training manual) with true.
  destruct (scale_float _ _ Cf) as [r ->].
  rewrite (scaled_dot_product_attention_training q k v r _ _ _ _ _ _ _ Hq Hk).
  subst fast manual.
  cbn [dropout_rate out_rearrange out_proj drop_output training train
       set_use_flash_attention].
  rewrite Hw, Hr.
  destruct (einsum_blxd_blyd_blxy q k); cbn [bind mul_scale]; [|reflexivity].
  destruct (einsum_bhxy_bhyd_bhxd _ v); cbn [bind]; [|reflexivity].
  destruct (Rearrange_forward _ _ _); cbn [bind]; [|reflexivity].
  destruct (Linear_forward _ _); cbn [bind fst]; reflexivity.
Qed.

(** X7. In evaluation mode the manual path ignores the dropout rate and the
    masks: two blocks built from the same arguments and initial values but
    different rates return the same result on every input. *)
Theorem eval_manual_ignores_rate (hs nh : Z) (dr1 dr2 : R) (qb sa : bool)
    (dh : option Z) (init : InitValues) (blk1 blk2 : SABlock)
    (rng1 rng2 : Rng) (x : Tensor) :
  SABlock_init hs nh dr1 qb sa dh init = Ok blk1 ->
  SABlock_init hs nh dr2 qb sa dh init = Ok blk2 ->
  (0 < nh)%Z ->
  forward_output (eval_ (set_use_flash_attention false blk1)) rng1 x =
  forward_output (eval_ (set_use_flash_attention false blk2)) rng2 x.
Proof.
  intros H1 H2 Hnh.
  pose proof (SABlock_init_inv _ _ _ _ _ _ _ _ H1)
    as (Hd1 & _ & Hmod & Hhs & Hin & Hnz & _).
  pose proof (SABlock_init_inv _ _ _ _ _ _ _ _ H2) as (Hd2 & _).
  assert (Hd : (0 < head_dim hs nh dh)%Z) by nia.
  rewrite (SABlock_init_value hs nh dr1 qb sa dh init Hd1 Hnh Hmod Hhs Hd)
    in H1.
  rewrite (SABlock_init_value hs nh dr2 qb sa dh init Hd2 Hnh Hmod Hhs Hd)
    in H2.
  injection H1 as <-. injection H2 as <-.
  apply forward_manual_eval_rate.
Qed.

Lemma forward_output_dropout (self self' : SABlock) (rng : Rng)
    (x y : Tensor) :
  forward self rng x = Ok (y, self') ->
  exists o, well_formed o /\
            y = dropout o (p (drop_output self)) (training self)
                  (output_mask rng).
Proof.
  unfold forward.
  destruct (project_qkv self x) as [[[q k] v]|]; simpl; [|discriminate].
  destruct (if use_flash_attention self then _ else _) as [a|]; simpl;
    [|discriminate].
  destruct (Rearrange_forward _ _ a) as [m|]; simpl; [|discriminate].
  destruct (Linear_forward _ m) as [o|] eqn:Ho; simpl; [|discriminate].
  intros H. injection H as <- _. exists o. split; [|reflexivity].
  eapply Linear_forward_well_formed. exact Ho.
Qed.

Lemma dropout_one_zeros (o : Tensor) (mask : list nat -> bool) :
  well_formed o -> dropout o 1 true mask = zeros (shape o).
Proof.
  intros Hwf. unfold dropout. cbn [negb].
  destruct (Req_dec_T 1 0); [lra|].
  destruct (Nat.eqb_spec (numel (shape o)) 0) as [Hn|Hn].
  - destruct o as [sh d]. unfold well_formed in Hwf. simpl in *.
    unfold zeros, tabulate. f_equal.
    rewrite Hn in Hwf. apply length_zero_iff_nil in Hwf. subst d.
    symmetry. apply length_zero_iff_nil. rewrite length_tab. exact Hn.
  - destruct (Req_dec_T 1 1); [|contradiction].
    unfold mul_scalar, zeros. apply tabulate_ext.
    intros idx _. apply Rmult_0_r.
Qed.

(** X8. With a dropout rate of 1, a call in training mode returns the zero
    tensor of the input's shape, on either path and whatever the masks,
    the parameters and the input's entries. *)
Theorem rate_one_training_zero_output (hs nh : Z) (qb sa : bool)
    (dh : option Z) (init : InitValues) (blk : SABlock) (fl : bool)
    (rng : Rng) (x : Tensor) (b s : nat) :
  SABlock_init hs nh 1 qb sa dh init = Ok blk -> (0 < nh)%Z ->
  shape x = [b; s; Z.to_nat hs] ->
  forward_output (train true (set_use_flash_attention fl blk)) rng x =
  Ok (zeros [b; s; Z.to_nat hs]).
Proof.
  intros Hinit Hnh Hx.
  pose proof (SABlock_init_consistent _ _ _ _ _ _ _ _ Hinit Hnh) as C.
  apply SABlock_init_inv in Hinit.
  destruct Hinit as (_ & _ & _ & _ & _ & _ & _ & _ & _ & _ & _ & _ & _ & _ &
                     Ho & _).
  set (self := train true (set_use_flash_attention fl blk)).
  assert (Cs : consistent (Z.to_nat hs) self)
    by apply consistent_train, consistent_set_use_flash_attention, C.
  destruct (forward_ok _ _ rng x b s Cs Hx) as (y & Hy & Hsy & _).
  rewrite (forward_output_ok _ _ _ _ _ Hy). f_equal.
  destruct (forward_output_dropout _ _ _ _ _ Hy) as (o & Hwf & Hyo).
  change (p (drop_output self)) with (p (drop_output blk)) in Hyo.
  change (training self) with true in Hyo. rewrite Ho in Hyo.
  rewrite (dropout_one_zeros o _ Hwf) in Hyo.
  rewrite Hyo in Hsy. cbn [shape zeros tabulate] in Hsy.
  rewrite Hyo, Hsy. reflexivity.
Qed.

(* ------------------------------------------------------------------ *)
(** ** The layers, entry by entry *)

Lemma in_range3_intro (a b c i j k : nat) :
  (i < a)%nat -> (j < b)%nat -> (k < c)%nat ->
  in_range [a; b; c] [i; j; k].
Proof. intros. repeat constructor; assumption. Qed.

Lemma in_range5_intro (a b c d e i j k l m : nat) :
  (i < a)%nat -> (j < b)%nat -> (k < c)%nat -> (l < d)%nat -> (m < e)%nat ->
  in_range [a; b; c; d; e] [i; j; k; l; m].
Proof. intros. repeat constructor; assumption. Qed.

Lemma linear_entry_ext (m : Linear) (row row' : nat -> R) (o : nat) :
  (forall i, (i < in_features m)%nat -> row i = row' i) ->
  linear_entry m row o = linear_entry m row' o.
Proof.
  intros H. unfold linear_entry. f_equal. apply sum_upto_ext.
  intros i Hi. rewrite (H i Hi). reflexivity.
Qed.

Lemma Linear_forward_entries (m : Linear) (x : Tensor) (b s : nat) :
  shape x = [b; s; in_features m] ->
  exists y,
    Linear_forward m x = Ok y /\ shape y = [b; s; out_features m] /\
    forall ib pos o,
      (ib < b)%nat -> (pos < s)%nat -> (o < out_features m)%nat ->
      get y [ib; pos; o] = linear_entry m (fun i => get x [ib; pos; i]) o.
Proof.
  intros Hx. unfold Linear_forward. rewrite Hx. cbn [rev app].
  rewrite Nat.eqb_refl. eexists. split; [reflexivity|].
  split; [reflexivity|]. intros ib pos o Hb Hp Ho.
  rewrite (get_tabulate [b; s; out_features m])
    by (apply in_range3_intro; assumption).
  reflexivity.
Qed.

Lemma split_entries (y : Tensor) (b s L D : nat) :
  shape y = [b; s; (3 * L * D)%nat] -> (0 < L)%nat ->
  exists o,
    Rearrange_forward einops (Rearrange_split 3 (Z.of_nat L)) y = Ok o /\
    shape o = [3%nat; b; L; s; D] /\
    forall iq ib il pos id,
      (iq < 3)%nat -> (ib < b)%nat -> (il < L)%nat -> (pos < s)%nat ->
      (id < D)%nat ->
      get o [iq; ib; il; pos; id] =
      get y [ib; pos; ((iq * L + il) * D + id)%nat].
Proof.
  intros Hy HL. cbn [Rearrange_forward]. rewrite Hy. unfold mod_.
  destruct (Z.eqb_spec (3 * Z.of_nat L) 0); [lia|]. cbn [bind].
  replace (Z.of_nat (3 * L * D)) with (Z.of_nat D * (3 * Z.of_nat L))%Z
    by lia.
  rewrite Z.mod_mul, Z.div_mul by lia.
  change (0 =? 0)%Z with true. change (3 <=? 0)%Z with false.
  destruct (Z.leb_spec (Z.of_nat L) 0); [lia|]. cbn [negb orb].
  rewrite !Nat2Z.id. change (Z.to_nat 3) with 3%nat.
  eexists. split; [reflexivity|]. split; [reflexivity|].
  intros iq ib il pos id Hq Hb Hl Hp Hd.
  rewrite (get_tabulate [3%nat; b; L; s; D])
    by (apply in_range5_intro; assumption).
  reflexivity.
Qed.

Lemma merge_entries (t : Tensor) (b h l d : nat) :
  shape t = [b; h; l; d] ->
  exists m,
    Rearrange_forward einops Rearrange_merge t = Ok m /\
    shape m = [b; l; (h * d)%nat] /\
    forall ib il j,
      (ib < b)%nat -> (il < l)%nat -> (j < h * d)%nat ->
      get m [ib; il; j] = get t [ib; (j / d)%nat; il; (j mod d)%nat].
Proof.
  intros Ht. cbn [Rearrange_forward]. rewrite Ht.
  eexists. split; [reflexivity|]. split; [reflexivity|].
  intros ib il j Hb Hl Hj.
  rewrite (get_tabulate [b; l; (h * d)%nat])
    by (apply in_range3_intro; assumption).
  reflexivity.
Qed.

(** X9. The heads are merged in the order they were split: splitting a
    packed projection into heads, taking the query, key or value part
    ([c] = 0, 1, 2) and merging its heads gives chunk [c] of the packed
    features, at every batch element and position. *)
Theorem split_merge_round_trip (y : Tensor) (b s L D c : nat) :
  shape y = [b; s; (3 * L * D)%nat] -> (0 < L)%nat -> (c < 3)%nat ->
  exists o t m,
    Rearrange_forward einops (Rearrange_split 3 (Z.of_nat L)) y = Ok o /\
    getitem o c = Ok t /\
    Rearrange_forward einops Rearrange_merge t = Ok m /\
    shape m = [b; s; (L * D)%nat] /\
    forall ib pos j,
      (ib < b)%nat -> (pos < s)%nat -> (j < L * D)%nat ->
      get m [ib; pos; j] = get y [ib; pos; (c * (L * D) + j)%nat].
Proof.
  intros Hy HL Hc.
  destruct (split_entries y b s L D Hy HL) as (o & Ho & Hso & Eo).
  pose proof (getitem_ok o c 3 [b; L; s; D] Hso Hc) as Ht.
  destruct (merge_entries
              (tabulate [b; L; s; D] (fun idx => get o (c :: idx)))
              b L s D eq_refl) as (m & Hm & Hsm & Em).
  exists o, (tabulate [b; L; s; D] (fun idx => get o (c :: idx))), m.
  repeat split; try assumption.
  intros ib pos j Hb Hp Hj.
  assert (HD : (0 < D)%nat) by (destruct D; lia).
  assert (Hdiv : (j / D < L)%nat)
    by (apply Nat.Div0.div_lt_upper_bound; lia).
  assert (Hmod : (j mod D < D)%nat) by (apply Nat.mod_upper_bound; lia).
  rewrite (Em ib pos j Hb Hp Hj).
  rewrite (get_tabulate [b; L; s; D])
    by (apply in_range4_intro; assumption).
  rewrite (Eo c ib (j / D)%nat pos (j mod D)%nat Hc Hb Hdiv Hp Hmod).
  do 4 f_equal.
  pose proof (Nat.div_mod_eq j D). nia.
Qed.

(* ------------------------------------------------------------------ *)
(** ** The attention weights *)

Lemma rsum_exp_ge (A : Type) (f : A -> R) (l : list A) (a : A) :
  In a l -> exp (f a) <= rsum (map (fun c => exp (f c)) l).
Proof.
  assert (Hnn : forall l0, 0 <= rsum (map (fun c => exp (f c)) l0)).
  { induction l0 as [|c l0 IH]; simpl; [lra|].
    pose proof (exp_pos (f c)). lra. }
  induction l as [|c l IH]; intros Hin; [contradiction|].
  simpl. destruct Hin as [->|Hin].
  - pose proof (Hnn l). lra.
  - pose proof (IH Hin). pose proof (exp_pos (f c)). lra.
Qed.

Lemma softmax_entry (t : Tensor) (b h x n ib ih ix iy : nat) :
  shape t = [b; h; x; n] ->
  (ib < b)%nat -> (ih < h)%nat -> (ix < x)%nat -> (iy < n)%nat ->
  get (softmax t) [ib; ih; ix; iy] =
  let row := map (fun j => get t [ib; ih; ix; j]) (seq 0 n) in
  let m := rmax_list row in
  exp (get t [ib; ih; ix; iy] - m) / rsum (map (fun v => exp (v - m)) row).
Proof.
  intros Hsh Hb Hh Hx Hy. unfold softmax. rewrite get_tabulate.
  - rewrite Hsh. reflexivity.
  - rewrite Hsh. apply in_range4_intro; assumption.
Qed.

Lemma softmax_entry_bounds (t : Tensor) (b h x n ib ih ix iy : nat) :
  shape t = [b; h; x; n] ->
  (ib < b)%nat -> (ih < h)%nat -> (ix < x)%nat -> (iy < n)%nat ->
  0 <= get (softmax t) [ib; ih; ix; iy] <= 1.
Proof.
  intros Hsh Hb Hh Hx Hy.
  rewrite (softmax_entry t b h x n) by assumption. cbv zeta.
  set (m := rmax_list _). rewrite map_map.
  set (den := rsum _).
  assert (Hnum : 0 < exp (get t [ib; ih; ix; iy] - m)) by apply exp_pos.
  assert (Hle : exp (get t [ib; ih; ix; iy] - m) <= den).
  { unfold den.
    apply (rsum_exp_ge nat (fun j => get t [ib; ih; ix; j] - m)).
    apply in_seq. lia. }
  assert (Hden : 0 < den) by lra.
  split.
  - left. apply Rdiv_lt_0_compat; assumption.
  - unfold Rdiv. replace 1 with (den * / den) by (apply Rinv_r; lra).
    apply Rmult_le_compat_r; [|exact Hle].
    left. apply Rinv_0_lt_compat. exact Hden.
Qed.

(** X10. On the manual path every attention weight lies in [[0, 1]]. *)
Theorem attention_weights_bounds (hs nh : Z) (dr : R) (qb sa : bool)
    (dh : option Z) (init : InitValues) (blk : SABlock) (mode : bool)
    (x : Tensor) (b s : nat) :
  SABlock_init hs nh dr qb sa dh init = Ok blk -> (0 < nh)%Z ->
  shape x = [b; s; Z.to_nat hs] ->
  exists q k v att,
    project_qkv (train mode (set_use_flash_attention false blk)) x
      = Ok (q, k, v) /\
    attention_weights (train mode (set_use_flash_attention false blk)) q k
      = Ok att /\
    forall ib ih ix iy,
      (ib < b)%nat -> (ih < Z.to_nat nh)%nat -> (ix < s)%nat ->
      (iy < s)%nat ->
      0 <= get att [ib; ih; ix; iy] <= 1.
Proof.
  intros Hinit Hnh Hx.
  pose proof (SABlock_init_consistent _ _ _ _ _ _ _ _ Hinit Hnh) as C.
  apply SABlock_init_inv in Hinit.
  destruct Hinit as (_ & _ & _ & _ & _ & _ & Enh & _).
  set (self := train mode (set_use_flash_attention false blk)).
  assert (Cs : consistent (Z.to_nat hs) self)
    by apply consistent_train, consistent_set_use_flash_attention, C.
  destruct (project_qkv_ok _ self x b s Cs Hx)
    as (q & k & v & Hp & Hq & Hk & _).
  destruct (attention_weights_ok _ self q k _ _ _ _ Cs Hq Hk)
    as (a & Ha & Hsa).
  change (num_heads self) with (num_heads blk) in *. rewrite Enh in *.
  exists q, k, v, (softmax a). repeat split; try assumption;
    apply (softmax_entry_bounds a b (Z.to_nat nh) s s); assumption.
Qed.

(* ------------------------------------------------------------------ *)
(** ** Which error a malformed input raises *)

Lemma last_default (l : list nat) (d d' : nat) :
  l <> [] -> last l d = last l d'.
Proof.
  induction l as [|a l IH]; intros Hl; [contradiction|].
  destruct l as [|c l]; [reflexivity|].
  change (last (c :: l) d = last (c :: l) d'). apply IH. discriminate.
Qed.

(** X11. The feature dimension is checked before the rank. On a block built
    with a positive number of heads, an input without axes or whose last
    dimension is not [hidden_size] raises torch's [RuntimeError], whatever
    its rank; an input whose last dimension is [hidden_size] but whose rank
    is not 3 raises the rank error of the split: [KeyError] with einops
    0.7.0 and later, [EinopsError] with earlier versions. *)
Theorem forward_error_kinds (hs nh : Z) (dr : R) (qb sa : bool)
    (dh : option Z) (init : InitValues) (blk : SABlock) (fl mode : bool)
    (rng : Rng) (x : Tensor) :
  SABlock_init hs nh dr qb sa dh init = Ok blk -> (0 < nh)%Z ->
  (shape x = [] \/ last (shape x) 0%nat <> Z.to_nat hs ->
   forward (train mode (set_use_flash_attention fl blk)) rng x
     = Err RuntimeError) /\
  (shape x <> [] -> last (shape x) 0%nat = Z.to_nat hs ->
   length (shape x) <> 3%nat ->
   forward (train mode (set_use_flash_attention fl blk)) rng x
     = Err (rank_error einops) /\
   (rank_error einops = KeyError \/ rank_error einops = EinopsError)).
Proof.
  intros Hinit Hnh.
  pose proof (SABlock_init_consistent _ _ _ _ _ _ _ _ Hinit Hnh) as C.
  set (self := train mode (set_use_flash_attention fl blk)).
  assert (Cs : consistent (Z.to_nat hs) self)
    by apply consistent_train, consistent_set_use_flash_attention, C.
  split.
  - intros Hbad.
    apply (forward_bad_last (Z.to_nat hs)); [apply (qkv_in _ _ Cs)|].
    destruct Hbad as [Hnil|Hlast]; [right; exact Hnil|].
    destruct (shape x) as [|a l] eqn:Hsh; [right; reflexivity|].
    left. rewrite (last_default (a :: l) (Z.to_nat hs) 0%nat) by discriminate.
    exact Hlast.
  - intros Hne Hlast Hrank. unfold forward, project_qkv.
    destruct (Linear_forward_ok (qkv self) x (removelast (shape x)))
      as (y & Hy & Hsy).
    { rewrite (qkv_in _ _ Cs), <- Hlast.
      apply app_removelast_last. exact Hne. }
    rewrite Hy. cbn [bind]. rewrite (split_layer _ _ Cs).
    split; [|destruct einops; [right|left]; reflexivity].
    rewrite split_rank_error; [reflexivity|].
    rewrite Hsy, length_app. cbn [length].
    rewrite (app_removelast_last 0%nat Hne), length_app in Hrank.
    exact Hrank.
Qed.

(* ------------------------------------------------------------------ *)
(** ** The output as the formula of multi-head attention *)

Lemma consistent_sizes (hidden : nat) (self : SABlock) :
  consistent hidden self ->
  (0 < heads self)%nat /\ (0 < head_size self)%nat /\
  Z.of_nat (heads self) = num_heads self /\
  out_features (qkv self) = (3 * heads self * head_size self)%nat /\
  in_features (out_proj self) = (heads self * head_size self)%nat.
Proof.
  intros C. pose proof (heads_pos _ _ C). pose proof (head_pos _ _ C).
  unfold heads, head_size. repeat split; try lia.
  - rewrite (qkv_out _ _ C). rewrite !Z2Nat.inj_mul by lia.
    change (Z.to_nat 3) with 3%nat. lia.
  - rewrite (out_proj_in _ _ C). rewrite Z2Nat.inj_mul by lia. lia.
Qed.

Lemma project_qkv_entries (hidden : nat) (self : SABlock) (x : Tensor)
    (b s : nat) :
  consistent hidden self -> shape x = [b; s; hidden] ->
  exists q k v,
    project_qkv self x = Ok (q, k, v) /\
    shape q = [b; heads self; s; head_size self] /\
    shape k = [b; heads self; s; head_size self] /\
    shape v = [b; heads self; s; head_size self] /\
    forall ib il pos id,
      (ib < b)%nat -> (il < heads self)%nat -> (pos < s)%nat ->
      (id < head_size self)%nat ->
      get q [ib; il; pos; id] = head_entry self (batch_slice x ib) 0 il pos id /\
      get k [ib; il; pos; id] = head_entry self (batch_slice x ib) 1 il pos id /\
      get v [ib; il; pos; id] = head_entry self (batch_slice x ib) 2 il pos id.
Proof.
  intros C Hx.
  destruct (consistent_sizes _ _ C) as (HL & HD & EL & Eout & _).
  unfold project_qkv.
  destruct (Linear_forward_entries (qkv self) x b s) as (y & -> & Hy & Ey).
  { rewrite (qkv_in _ _ C). exact Hx. }
  cbn [bind]. rewrite (split_layer _ _ C), <- EL.
  rewrite Eout in Hy.
  destruct (split_entries y b s (heads self) (head_size self) Hy HL)
    as (o & -> & Ho & Eo).
  cbn [bind]. rewrite !(getitem_ok o _ _ _ Ho) by lia. cbn [bind].
  do 3 eexists. split; [reflexivity|]. do 3 (split; [reflexivity|]).
  intros ib il pos id Hb Hl Hp Hd.
  assert (Hr : in_range [b; heads self; s; head_size self] [ib; il; pos; id])
    by (apply in_range4_intro; assumption).
  rewrite !(get_tabulate [b; heads self; s; head_size self]) by exact Hr.
  rewrite !Eo by (assumption || lia).
  rewrite !Ey by (try assumption; rewrite Eout; nia).
  repeat split.
Qed.

Lemma attention_weights_entries (hidden : nat) (self : SABlock) (x : Tensor)
    (q k : Tensor) (b s : nat) :
  consistent hidden self ->
  shape q = [b; heads self; s; head_size self] ->
  shape k = [b; heads self; s; head_size self] ->
  (forall ib il pos id,
     (ib < b)%nat -> (il < heads self)%nat -> (pos < s)%nat ->
     (id < head_size self)%nat ->
     get q [ib; il; pos; id] = head_entry self (batch_slice x ib) 0 il pos id /\
     get k [ib; il; pos; id] = head_entry self (batch_slice x ib) 1 il pos id) ->
  exists att,
    attention_weights self q k = Ok att /\
    shape att = [b; heads self; s; s] /\
    forall ib il ix iy,
      (ib < b)%nat -> (il < heads self)%nat -> (ix < s)%nat ->
      (iy < s)%nat ->
      get att [ib; il; ix; iy] =
      weight_entry self (batch_slice x ib) s il ix iy.
Proof.
  intros C Hq Hk E. unfold attention_weights, einsum_blxd_blyd_blxy.
  rewrite Hq, Hk, !Nat.eqb_refl. cbn [andb bind].
  destruct (scale_float _ _ C) as [r Hr]. rewrite Hr. cbn [mul_scale bind].
  eexists. split; [reflexivity|]. split; [reflexivity|].
  intros ib il ix iy Hb Hl Hx Hy.
  set (a := mul_scalar _ r).
  assert (Ea : forall j, (j < s)%nat ->
            get a [ib; il; ix; j] = score_entry self (batch_slice x ib) il ix j).
  { intros j Hj. unfold a, mul_scalar. cbn [shape tabulate].
    assert (Hr4 : in_range [b; heads self; s; s] [ib; il; ix; j])
      by (apply in_range4_intro; assumption).
    rewrite (get_tabulate [b; heads self; s; s]) by exact Hr4.
    rewrite (get_tabulate [b; heads self; s; s]) by exact Hr4.
    unfold score_entry, scale_value. rewrite Hr. f_equal.
    apply sum_upto_ext. intros d Hd.
    rewrite (proj1 (E ib il ix d Hb Hl Hx Hd)).
    rewrite (proj2 (E ib il j d Hb Hl Hj Hd)). reflexivity. }
  rewrite (softmax_entry a b (heads self) s s) by (assumption || reflexivity).
  unfold weight_entry. cbv zeta.
  assert (Erow : map (fun j => get a [ib; il; ix; j]) (seq 0 s) =
                 map (fun j => score_entry self (batch_slice x ib) il ix j)
                   (seq 0 s)).
  { apply map_ext_in. intros j Hj. apply in_seq in Hj. apply Ea. lia. }
  rewrite Erow, (Ea iy Hy). reflexivity.
Qed.

(** On a consistent block, what [forward] computes without dropout is,
    entry by entry, the formula of multi-head attention on the batch
    element the entry belongs to. *)
Lemma forward_no_dropout_entries (hidden : nat) (self : SABlock) (x : Tensor)
    (b s : nat) :
  consistent hidden self -> shape x = [b; s; hidden] ->
  exists y,
    forward_no_dropout self x = Ok y /\ shape y = [b; s; hidden] /\
    forall ib pos j,
      (ib < b)%nat -> (pos < s)%nat -> (j < hidden)%nat ->
      get y [ib; pos; j] = output_entry self (batch_slice x ib) s pos j.
Proof.
  intros C Hx.
  destruct (consistent_sizes _ _ C) as (HL & HD & EL & _ & Ein).
  unfold forward_no_dropout.
  destruct (project_qkv_entries hidden self x b s C Hx)
    as (q & k & v & -> & Hq & Hk & Hv & E).
  cbn [bind].
  destruct (attention_weights_entries hidden self x q k b s C Hq Hk)
    as (att & -> & Hatt & Eatt).
  { intros ib il pos id Hb Hl Hp Hd.
    destruct (E ib il pos id Hb Hl Hp Hd) as (E0 & E1 & _). split; assumption. }
  cbn [bind]. unfold einsum_bhxy_bhyd_bhxd.
  rewrite Hatt, Hv, !Nat.eqb_refl. cbn [andb bind].
  rewrite (merge_layer _ _ C).
  match goal with
  | |- context [Rearrange_forward einops Rearrange_merge ?t] =>
      destruct (merge_entries t b (heads self) s (head_size self) eq_refl)
        as (m & Hm & Hsm & Em); rewrite Hm
  end.
  cbn [bind].
  destruct (Linear_forward_entries (out_proj self) m b s) as (y & -> & Hy & Ey).
  { rewrite Hsm, Ein. reflexivity. }
  rewrite (out_proj_out _ _ C) in Hy, Ey.
  exists y. split; [reflexivity|]. split; [exact Hy|].
  intros ib pos j Hb Hp Hj.
  rewrite (Ey ib pos j Hb Hp Hj). unfold output_entry.
  apply linear_entry_ext. intros c Hc. rewrite Ein in Hc.
  assert (Hdiv : (c / head_size self < heads self)%nat)
    by (apply Nat.Div0.div_lt_upper_bound; lia).
  assert (Hmod : (c mod head_size self < head_size self)%nat)
    by (apply Nat.mod_upper_bound; lia).
  rewrite (Em ib pos c Hb Hp Hc).
  rewrite (get_tabulate [b; heads self; s; head_size self])
    by (apply in_range4_intro; assumption).
  unfold attended_entry. apply sum_upto_ext. intros iy Hy'.
  rewrite (Eatt ib _ pos iy Hb Hdiv Hp Hy').
  destruct (E ib (c / head_size self)%nat iy (c mod head_size self)%nat
              Hb Hdiv Hy' Hmod) as (_ & _ & ->).
  reflexivity.
Qed.

Lemma forward_without_dropout (hs nh : Z) (dr : R) (qb sa : bool)
    (dh : option Z) (init : InitValues) (blk : SABlock) (fl mode : bool)
    (rng : Rng) (x : Tensor) (b s : nat) :
  SABlock_init hs nh dr qb sa dh init = Ok blk -> (0 < nh)%Z ->
  shape x = [b; s; Z.to_nat hs] ->
  (fl = false /\ mode = false) \/ dr = 0 ->
  forward_output (train mode (set_use_flash_attention fl blk)) rng x =
  forward_no_dropout blk x.
Proof.
  intros Hinit Hnh Hx Hno.
  pose proof (SABlock_init_consistent _ _ _ _ _ _ _ _ Hinit Hnh) as C.
  apply SABlock_init_inv in Hinit.
  destruct Hinit as (_ & _ & _ & _ & _ & _ & _ & _ & _ & _ & _ & _ & _ & _ &
                     Ho & Hw & Hr & _).
  set (self := train mode (set_use_flash_attention fl blk)).
  assert (Cs : consistent (Z.to_nat hs) self)
    by apply consistent_train, consistent_set_use_flash_attention, C.
  change (forward_no_dropout blk x) with (forward_no_dropout self x).
  destruct Hno as [[-> ->]| ->].
  - apply forward_manual_no_dropout; [reflexivity|left; reflexivity].
  - destruct fl.
    + apply (forward_flash_no_dropout _ self rng x b s Cs Hx eq_refl Hr).
      right. exact Ho.
    + apply forward_manual_no_dropout; [reflexivity|].
      right. split; assumption.
Qed.

(** X12. When no dropout is active (manual path in evaluation mode, or a
    block built with a rate of 0 on either path and in either mode), every
    entry of the output is the formula of multi-head attention on the batch
    element it belongs to: the output projection of the heads' weighted
    sums of values, with softmax weights of the scaled query-key products. *)
Theorem forward_is_multi_head_attention (hs nh : Z) (dr : R) (qb sa : bool)
    (dh : option Z) (init : InitValues) (blk : SABlock) (fl mode : bool)
    (rng : Rng) (x : Tensor) (b s : nat) :
  SABlock_init hs nh dr qb sa dh init = Ok blk -> (0 < nh)%Z ->
  shape x = [b; s; Z.to_nat hs] ->
  (fl = false /\ mode = false) \/ dr = 0 ->
  exists y,
    forward_output (train mode (set_use_flash_attention fl blk)) rng x
      = Ok y /\
    forall ib pos j,
      (ib < b)%nat -> (pos < s)%nat -> (j < Z.to_nat hs)%nat ->
      get y [ib; pos; j] = output_entry blk (batch_slice x ib) s pos j.
Proof.
  intros Hinit Hnh Hx Hno.
  rewrite (forward_without_dropout _ _ _ _ _ _ _ _ fl mode rng x b s
             Hinit Hnh Hx Hno).
  pose proof (SABlock_init_consistent _ _ _ _ _ _ _ _ Hinit Hnh) as C.
  destruct (forward_no_dropout_entries _ blk x b s C Hx) as (y & Hy & _ & Ey).
  exists y. split; assumption.
Qed.

(** The formula looks at its batch element at the [s] positions and the
    features the packed projection reads, and nowhere else. *)
Lemma head_entry_ext (self : SABlock) (xs xs' : nat -> nat -> R)
    (c il pos id : nat) :
  (forall i, (i < in_features (qkv self))%nat -> xs pos i = xs' pos i) ->
  head_entry self xs c il pos id = head_entry self xs' c il pos id.
Proof. intros H. unfold head_entry. apply linear_entry_ext. exact H. Qed.

Lemma score_entry_ext (self : SABlock) (xs xs' : nat -> nat -> R)
    (s il ix iy : nat) :
  (forall pos i, (pos < s)%nat -> (i < in_features (qkv self))%nat ->
                 xs pos i = xs' pos i) ->
  (ix < s)%nat -> (iy < s)%nat ->
  score_entry self xs il ix iy = score_entry self xs' il ix iy.
Proof.
  intros H Hx Hy. unfold score_entry. f_equal. apply sum_upto_ext.
  intros d _.
  rewrite (head_entry_ext self xs xs' 0 il ix d) by (intros; apply H; assumption).
  rewrite (head_entry_ext self xs xs' 1 il iy d) by (intros; apply H; assumption).
  reflexivity.
Qed.

Lemma weight_entry_ext (self : SABlock) (xs xs' : nat -> nat -> R)
    (s il ix iy : nat) :
  (forall pos i, (pos < s)%nat -> (i < in_features (qkv self))%nat ->
                 xs pos i = xs' pos i) ->
  (ix < s)%nat -> (iy < s)%nat ->
  weight_entry self xs s il ix iy = weight_entry self xs' s il ix iy.
Proof.
  intros H Hx Hy. unfold weight_entry. cbv zeta.
  assert (Erow : map (fun j => score_entry self xs il ix j) (seq 0 s) =
                 map (fun j => score_entry self xs' il ix j) (seq 0 s)).
  { apply map_ext_in. intros j Hj. apply in_seq in Hj.
    apply (score_entry_ext self xs xs' s); [exact H|exact Hx|lia]. }
  rewrite Erow, (score_entry_ext self xs xs' s il ix iy H Hx Hy).
  reflexivity.
Qed.

Lemma output_entry_ext (self : SABlock) (xs xs' : nat -> nat -> R)
    (s pos j : nat) :
  (forall p0 i, (p0 < s)%nat -> (i < in_features (qkv self))%nat ->
                xs p0 i = xs' p0 i) ->
  (pos < s)%nat ->
  output_entry self xs s pos j = output_entry self xs' s pos j.
Proof.
  intros H Hp. unfold output_entry. apply linear_entry_ext. intros c _.
  unfold attended_entry. apply sum_upto_ext. intros iy Hy.
  rewrite (weight_entry_ext self xs xs' s _ pos iy H Hp Hy).
  rewrite (head_entry_ext self xs xs' 2 _ iy _)
    by (intros; apply H; assumption).
  reflexivity.
Qed.

(** X13. Batch elements are processed independently: when no dropout is
    active, the output at a batch element depends on the input at that
    batch element only. Two inputs, of any batch sizes, that hold the same
    sequence at batch elements [ib] and [ib'] give the same output there. *)
Theorem batch_elements_independent (hs nh : Z) (dr : R) (qb sa : bool)
    (dh : option Z) (init : InitValues) (blk : SABlock) (fl mode : bool)
    (rng rng' : Rng) (x x' : Tensor) (b b' s ib ib' : nat) :
  SABlock_init hs nh dr qb sa dh init = Ok blk -> (0 < nh)%Z ->
  shape x = [b; s; Z.to_nat hs] -> shape x' = [b'; s; Z.to_nat hs] ->
  (fl = false /\ mode = false) \/ dr = 0 ->
  (ib < b)%nat -> (ib' < b')%nat ->
  (forall pos i, (pos < s)%nat -> (i < Z.to_nat hs)%nat ->
                 get x [ib; pos; i] = get x' [ib'; pos; i]) ->
  exists y y',
    forward_output (train mode (set_use_flash_attention fl blk)) rng x
      = Ok y /\
    forward_output (train mode (set_use_flash_attention fl blk)) rng' x'
      = Ok y' /\
    forall pos j, (pos < s)%nat -> (j < Z.to_nat hs)%nat ->
                  get y [ib; pos; j] = get y' [ib'; pos; j].
Proof.
  intros Hinit Hnh Hx Hx' Hno Hb Hb' Hsame.
  pose proof (SABlock_init_consistent _ _ _ _ _ _ _ _ Hinit Hnh) as C.
  rewrite (forward_without_dropout _ _ _ _ _ _ _ _ fl mode rng x b s
             Hinit Hnh Hx Hno).
  rewrite (forward_without_dropout _ _ _ _ _ _ _ _ fl mode rng' x' b' s
             Hinit Hnh Hx' Hno).
  destruct (forward_no_dropout_entries _ blk x b s C Hx) as (y & Hy & _ & Ey).
  destruct (forward_no_dropout_entries _ blk x' b' s C Hx')
    as (y' & Hy' & _ & Ey').
  exists y, y'. split; [exact Hy|]. split; [exact Hy'|].
  intros pos j Hp Hj.
  rewrite (Ey ib pos j Hb Hp Hj), (Ey' ib' pos j Hb' Hp Hj).
  apply output_entry_ext; [|exact Hp].
  intros p0 i Hp0 Hi. rewrite (qkv_in _ _ C) in Hi.
  apply Hsame; assumption.
Qed.

Lemma sum_upto_zero (n : nat) (f : nat -> R) :
  (forall i, (i < n)%nat -> f i = 0) -> sum_upto n f = 0.
Proof.
  intros H. rewrite (sum_upto_ext n f (fun _ => 0) H).
  unfold sum_upto. induction (seq 0 n) as [|a l IH]; simpl; [reflexivity|].
  rewrite IH. lra.
Qed.

(** X14. Without a bias on the packed projection ([qkv_bias=False]) and
    with no dropout active, an input of zeros gives the bias of the output
    projection at every position: every entry [j] of the output is entry
    [j] of that bias. *)
Theorem zero_input_gives_output_bias (hs nh : Z) (dr : R) (sa : bool)
    (dh : option Z) (init : InitValues) (blk : SABlock) (fl mode : bool)
    (rng : Rng) (x : Tensor) (b s : nat) :
  SABlock_init hs nh dr false sa dh init = Ok blk -> (0 < nh)%Z ->
  shape x = [b; s; Z.to_nat hs] ->
  (fl = false /\ mode = false) \/ dr = 0 ->
  (forall ib pos i, (ib < b)%nat -> (pos < s)%nat -> (i < Z.to_nat hs)%nat ->
                    get x [ib; pos; i] = 0) ->
  exists y,
    forward_output (train mode (set_use_flash_attention fl blk)) rng x
      = Ok y /\
    forall ib pos j,
      (ib < b)%nat -> (pos < s)%nat -> (j < Z.to_nat hs)%nat ->
      get y [ib; pos; j] = out_proj_bias init [j].
Proof.
  intros Hinit Hnh Hx Hno Hzero.
  rewrite (forward_without_dropout _ _ _ _ _ _ _ _ fl mode rng x b s
             Hinit Hnh Hx Hno).
  pose proof (SABlock_init_consistent _ _ _ _ _ _ _ _ Hinit Hnh) as C.
  destruct (forward_no_dropout_entries _ blk x b s C Hx) as (y & Hy & _ & Ey).
  exists y. split; [exact Hy|]. intros ib pos j Hb Hp Hj.
  rewrite (Ey ib pos j Hb Hp Hj).
  pose proof (SABlock_init_inv _ _ _ _ _ _ _ _ Hinit)
    as (Hd & _ & Hmod & Hhs & Hin & Hnz & _).
  assert (Hdp : (0 < head_dim hs nh dh)%Z) by nia.
  rewrite (SABlock_init_value hs nh dr false sa dh init Hd Hnh Hmod Hhs Hdp)
    in Hinit.
  injection Hinit as <-.
  unfold output_entry, linear_entry.
  rewrite sum_upto_zero.
  - unfold bias_entry. cbn [bias out_proj new_block].
    rewrite (get_tabulate [Z.to_nat hs]) by (repeat constructor; exact Hj).
    lra.
  - intros c _. unfold attended_entry. rewrite sum_upto_zero; [lra|].
    intros iy Hy'. unfold head_entry, linear_entry.
    rewrite sum_upto_zero.
    + unfold bias_entry. cbn [bias qkv new_block]. lra.
    + intros i Hi. cbn [in_features qkv new_block] in Hi.
      unfold batch_slice. rewrite (Hzero ib iy i Hb Hy' Hi). lra.
Qed.

(** X15. On sequences of a single position the attention weights are 1,
    and with no dropout active the output is the output projection of the
    value part of the packed projection: the query and key parts of the
    weights play no role. *)
Theorem single_position_output (hs nh : Z) (dr : R) (qb sa : bool)
    (dh : option Z) (init : InitValues) (blk : SABlock) (fl mode : bool)
    (rng : Rng) (x : Tensor) (b : nat) :
  SABlock_init hs nh dr qb sa dh init = Ok blk -> (0 < nh)%Z ->
  shape x = [b; 1%nat; Z.to_nat hs] ->
  (fl = false /\ mode = false) \/ dr = 0 ->
  exists y,
    forward_output (train mode (set_use_flash_attention fl blk)) rng x
      = Ok y /\
    forall ib j,
      (ib < b)%nat -> (j < Z.to_nat hs)%nat ->
      get y [ib; 0%nat; j] =
      linear_entry (out_proj blk)
        (fun c => linear_entry (qkv blk) (fun i => get x [ib; 0%nat; i])
                    (2 * (heads blk * head_size blk) + c)%nat)
        j.
Proof.
  intros Hinit Hnh Hx Hno.
  rewrite (forward_without_dropout _ _ _ _ _ _ _ _ fl mode rng x b 1
             Hinit Hnh Hx Hno).
  pose proof (SABlock_init_consistent _ _ _ _ _ _ _ _ Hinit Hnh) as C.
  destruct (consistent_sizes _ _ C) as (HL & HD & _ & _ & Ein).
  destruct (forward_no_dropout_entries _ blk x b 1 C Hx) as (y & Hy & _ & Ey).
  exists y. split; [exact Hy|]. intros ib j Hb Hj.
  rewrite (Ey ib 0%nat j Hb Nat.lt_0_1 Hj).
  unfold output_entry. apply linear_entry_ext. intros c Hc.
  unfold attended_entry, weight_entry, sum_upto.
  cbn [seq map rsum fold_right rmax_list fold_left].
  unfold head_entry, batch_slice.
  replace ((2 * heads blk + c / head_size blk) * head_size blk
           + c mod head_size blk)%nat
    with (2 * (heads blk * head_size blk) + c)%nat
    by (pose proof (Nat.div_mod_eq c (head_size blk)); nia).
  set (v := linear_entry (qkv blk) _ _).
  softmax_of_one. lra.
Qed.

(* ------------------------------------------------------------------ *)
(** ** Reordering the positions *)

Lemma rsum_Permutation (l l' : list R) :
  Permutation l l' -> rsum l = rsum l'.
Proof.
  intros H. induction H; simpl; lra.
Qed.

Lemma sum_upto_permutation (pi : nat -> nat) (s : nat) (f : nat -> R) :
  Permutation (map pi (seq 0 s)) (seq 0 s) ->
  sum_upto s (fun i => f (pi i)) = sum_upto s f.
Proof.
  intros H. unfold sum_upto. rewrite <- (map_map pi f).
  apply rsum_Permutation, Permutation_map, H.
Qed.

Lemma permutation_in_range (pi : nat -> nat) (s i : nat) :
  Permutation (map pi (seq 0 s)) (seq 0 s) -> (i < s)%nat -> (pi i < s)%nat.
Proof.
  intros H Hi.
  assert (Hin : In (pi i) (seq 0 s)).
  { apply (Permutation_in _ H). apply in_map. apply in_seq. lia. }
  apply in_seq in Hin. lia.
Qed.

Lemma rsum_factor (A : Type) (f : A -> R) (c : R) (l : list A) :
  rsum (map (fun a => f a * c) l) = rsum (map f l) * c.
Proof.
  induction l as [|a l IH]; simpl; [lra|]. rewrite IH. lra.
Qed.

(** Taking the row maximum off before exponentiation does not change a
    weight. *)
Lemma weight_entry_plain (self : SABlock) (xs : nat -> nat -> R)
    (s il ix iy : nat) :
  weight_entry self xs s il ix iy =
  exp (score_entry self xs il ix iy) /
  sum_upto s (fun j => exp (score_entry self xs il ix j)).
Proof.
  unfold weight_entry, sum_upto. cbv zeta. rewrite map_map.
  set (m := rmax_list _).
  rewrite (map_ext (fun j => exp (score_entry self xs il ix j - m))
             (fun j => exp (score_entry self xs il ix j) * exp (- m)))
    by (intros j; unfold Rminus; apply exp_plus).
  rewrite (rsum_factor nat (fun j => exp (score_entry self xs il ix j))).
  unfold Rminus. rewrite exp_plus. unfold Rdiv.
  rewrite Rinv_mult.
  pose proof (exp_pos (- m)) as Hm.
  set (e := exp (- m)) in *.
  transitivity (exp (score_entry self xs il ix iy)
                * / rsum (map (fun j => exp (score_entry self xs il ix j))
                            (seq 0 s))
                * (e * / e)); [ring|].
  rewrite Rinv_r by lra. ring.
Qed.

Lemma output_entry_permutation (self : SABlock) (xs xs' : nat -> nat -> R)
    (pi : nat -> nat) (s pos j : nat) :
  Permutation (map pi (seq 0 s)) (seq 0 s) ->
  (forall p0 i, (p0 < s)%nat -> (i < in_features (qkv self))%nat ->
                xs' p0 i = xs (pi p0) i) ->
  (pos < s)%nat ->
  output_entry self xs' s pos j = output_entry self xs s (pi pos) j.
Proof.
  intros Hpi Hx Hp.
  assert (Eh : forall c il p0 id, (p0 < s)%nat ->
            head_entry self xs' c il p0 id =
            head_entry self xs c il (pi p0) id).
  { intros c il p0 id Hp0. unfold head_entry. apply linear_entry_ext.
    intros i Hi. apply Hx; assumption. }
  assert (Es : forall il ix iy, (ix < s)%nat -> (iy < s)%nat ->
            score_entry self xs' il ix iy =
            score_entry self xs il (pi ix) (pi iy)).
  { intros il ix iy Hix Hiy. unfold score_entry. f_equal.
    apply sum_upto_ext. intros d _.
    rewrite (Eh 0%nat il ix d Hix), (Eh 1%nat il iy d Hiy). reflexivity. }
  assert (Ew : forall il ix iy, (ix < s)%nat -> (iy < s)%nat ->
            weight_entry self xs' s il ix iy =
            weight_entry self xs s il (pi ix) (pi iy)).
  { intros il ix iy Hix Hiy. rewrite !weight_entry_plain.
    rewrite (Es il ix iy Hix Hiy). f_equal.
    rewrite <- (sum_upto_permutation pi s
                  (fun j => exp (score_entry self xs il (pi ix) j)) Hpi).
    apply sum_upto_ext. intros k Hk. rewrite (Es il ix k Hix Hk).
    reflexivity. }
  unfold output_entry. apply linear_entry_ext. intros c _.
  unfold attended_entry.
  rewrite <- (sum_upto_permutation pi s
                (fun iy => weight_entry self xs s _ (pi pos) iy
                           * head_entry self xs 2 _ iy _) Hpi).
  apply sum_upto_ext. intros iy Hiy.
  rewrite (Ew _ pos iy Hp Hiy), (Eh 2%nat _ iy _ Hiy). reflexivity.
Qed.

(** X16. The block is equivariant under reordering of the positions: with
    no dropout active, if an input holds the sequence of another one
    reordered by a permutation of the positions, its output is the other
    one's output reordered in the same way. *)
Theorem position_permutation_equivariant (hs nh : Z) (dr : R) (qb sa : bool)
    (dh : option Z) (init : InitValues) (blk : SABlock) (fl mode : bool)
    (rng rng' : Rng) (x x' : Tensor) (b s : nat) (pi : nat -> nat) :
  SABlock_init hs nh dr qb sa dh init = Ok blk -> (0 < nh)%Z ->
  shape x = [b; s; Z.to_nat hs] -> shape x' = [b; s; Z.to_nat hs] ->
  (fl = false /\ mode = false) \/ dr = 0 ->
  Permutation (map pi (seq 0 s)) (seq 0 s) ->
  (forall ib pos i, (ib < b)%nat -> (pos < s)%nat -> (i < Z.to_nat hs)%nat ->
                    get x' [ib; pos; i] = get x [ib; pi pos; i]) ->
  exists y y',
    forward_output (train mode (set_use_flash_attention fl blk)) rng x
      = Ok y /\
    forward_output (train mode (set_use_flash_attention fl blk)) rng' x'
      = Ok y' /\
    forall ib pos j,
      (ib < b)%nat -> (pos < s)%nat -> (j < Z.to_nat hs)%nat ->
      get y' [ib; pos; j] = get y [ib; pi pos; j].
Proof.
  intros Hinit Hnh Hx Hx' Hno Hpi Hsame.
  pose proof (SABlock_init_consistent _ _ _ _ _ _ _ _ Hinit Hnh) as C.
  rewrite (forward_without_dropout _ _ _ _ _ _ _ _ fl mode rng x b s
             Hinit Hnh Hx Hno).
  rewrite (forward_without_dropout _ _ _ _ _ _ _ _ fl mode rng' x' b s
             Hinit Hnh Hx' Hno).
  destruct (forward_no_dropout_entries _ blk x b s C Hx) as (y & Hy & _ & Ey).
  destruct (forward_no_dropout_entries _ blk x' b s C Hx')
    as (y' & Hy' & _ & Ey').
  exists y, y'. split; [exact Hy|]. split; [exact Hy'|].
  intros ib pos j Hb Hp Hj.
  rewrite (Ey' ib pos j Hb Hp Hj).
  rewrite (Ey ib (pi pos) j Hb (permutation_in_range pi s pos Hpi Hp) Hj).
  apply output_entry_permutation; [exact Hpi| |exact Hp].
  intros p0 i Hp0 Hi. rewrite (qkv_in _ _ C) in Hi.
  apply Hsame; assumption.
Qed.


End Installed_einops.

(* ------------------------------------------------------------------ *)
(** ** The statements above on given inputs *)

(** Each statement above that has hypotheses, at an input that meets them,
    with einops 0.7.0 or later unless said otherwise. *)

Arguments tab : simpl never.
Arguments sum_upto : simpl never.

Lemma flash_manual_same_output_witness :
  SABlock_init 8 2 0 false false None ones_init =
    Ok (new_block 8 2 0 false false 4 ones_init) /\
  (0 < 2)%Z /\
  shape (zeros [1; 3; 8]%nat) = [1; 3; Z.to_nat 8]%nat /\
  exists y,
    forward_output From_0_7_0
      (train false (set_use_flash_attention true
                      (new_block 8 2 0 false false 4 ones_init)))
      keep_all (zeros [1; 3; 8]%nat) = Ok y /\
    forward_output From_0_7_0
      (train false (set_use_flash_attention false
                      (new_block 8 2 0 false false 4 ones_init)))
      keep_all (zeros [1; 3; 8]%nat) = Ok y.
Proof.
  split; [exact (scenario_init 0 false unit_interval_0)|].
  split; [reflexivity|]. split; [reflexivity|].
  exact (flash_manual_same_output From_0_7_0 8 2 false false None ones_init _ false
           keep_all keep_all (zeros [1; 3; 8]%nat) 1 3
           (scenario_init 0 false unit_interval_0) eq_refl eq_refl).
Defined.

Lemma forward_output_shape_witness :
  SABlock_init 8 2 (1 / 2) false false None ones_init =
    Ok (new_block 8 2 (1 / 2) false false 4 ones_init) /\
  (0 < 2)%Z /\
  shape (zeros [1; 3; 8]%nat) = [1; 3; Z.to_nat 8]%nat /\
  exists y self',
    forward From_0_7_0
      (train true (set_use_flash_attention true
                     (new_block 8 2 (1 / 2) false false 4 ones_init)))
      keep_all (zeros [1; 3; 8]%nat) = Ok (y, self') /\
    shape y = shape (zeros [1; 3; 8]%nat) /\ well_formed y.
Proof.
  split; [exact (scenario_init (1 / 2) false unit_interval_half)|].
  split; [reflexivity|]. split; [reflexivity|].
  exact (forward_output_shape From_0_7_0 8 2 (1 / 2) false false None ones_init _
           true true keep_all (zeros [1; 3; 8]%nat) 1 3
           (scenario_init (1 / 2) false unit_interval_half) eq_refl eq_refl).
Defined.

Lemma forward_deterministic_witness :
  SABlock_init 1 1 0 false false None ones_init =
    Ok (new_block 1 1 0 false false 1 ones_init) /\
  forward From_0_7_0
    (train true (set_use_flash_attention true
                   (new_block 1 1 0 false false 1 ones_init)))
    keep_all x111 =
  forward From_0_7_0
    (train true (set_use_flash_attention true
                   (new_block 1 1 0 false false 1 ones_init)))
    (mkRng (fun _ => false) (fun _ => false)) x111 /\
  forall y self',
    forward From_0_7_0
      (train true (set_use_flash_attention true
                     (new_block 1 1 0 false false 1 ones_init)))
      keep_all x111 = Ok (y, self') ->
    forward From_0_7_0 self' (mkRng (fun _ => false) (fun _ => false)) x111
      = Ok (y, self').
Proof.
  split; [exact (one_head_init 0 false unit_interval_0)|].
  exact (forward_deterministic From_0_7_0 1 1 false false None ones_init _ true true
           keep_all (mkRng (fun _ => false) (fun _ => false)) x111
           (one_head_init 0 false unit_interval_0)).
Defined.

Lemma attention_rows_sum_to_one_witness :
  SABlock_init 8 2 0 false false None ones_init =
    Ok (new_block 8 2 0 false false 4 ones_init) /\
  (0 < 2)%Z /\
  shape (zeros [1; 3; 8]%nat) = [1; 3; Z.to_nat 8]%nat /\
  exists q k v att,
    project_qkv From_0_7_0
      (train false (set_use_flash_attention false
                      (new_block 8 2 0 false false 4 ones_init)))
      (zeros [1; 3; 8]%nat) = Ok (q, k, v) /\
    attention_weights
      (train false (set_use_flash_attention false
                      (new_block 8 2 0 false false 4 ones_init))) q k
      = Ok att /\
    shape att = [1; Z.to_nat 2; 3; 3]%nat /\
    forall ib ih ix,
      (ib < 1)%nat -> (ih < Z.to_nat 2)%nat -> (ix < 3)%nat ->
      row_sum att ib ih ix = 1.
Proof.
  split; [exact (scenario_init 0 false unit_interval_0)|].
  split; [reflexivity|]. split; [reflexivity|].
  exact (attention_rows_sum_to_one From_0_7_0 8 2 0 false false None ones_init _ false
           (zeros [1; 3; 8]%nat) 1 3
           (scenario_init 0 false unit_interval_0) eq_refl eq_refl).
Defined.

Lemma dropout_rate_validation_witness :
  (~ (0 <= 3 / 2 <= 1) /\
   SABlock_init 8 2 (3 / 2) false false None ones_init =
   Err (ValueError "dropout_rate should be between 0 and 1.")) /\
  (0 <= 1 / 2 <= 1 /\ (0 < 8)%Z /\ (0 < 2)%Z /\ (8 mod 2 = 0)%Z /\
   exists blk, SABlock_init 8 2 (1 / 2) false false None ones_init = Ok blk).
Proof.
  assert (Hout : ~ (0 <= 3 / 2 <= 1)) by lra.
  split.
  - split; [exact Hout|].
    exact (proj1 (dropout_rate_validation 8 2 (3 / 2) false false None
                    ones_init) Hout).
  - split; [exact unit_interval_half|].
    split; [reflexivity|]. split; [reflexivity|]. split; [reflexivity|].
    apply (proj2 (dropout_rate_validation 8 2 (1 / 2) false false None
                    ones_init) unit_interval_half);
      try reflexivity.
    intros d Hd. discriminate Hd.
Defined.

Lemma zero_heads_division_error_witness :
  (0 <= 0 <= 1 /\
   SABlock_init 8 0 0 false false None ones_init = Err ZeroDivisionError) /\
  (~ (0 <= 3 / 2 <= 1) /\
   SABlock_init 8 0 (3 / 2) false false None ones_init =
   Err (ValueError "dropout_rate should be between 0 and 1.")).
Proof.
  assert (Hout : ~ (0 <= 3 / 2 <= 1)) by lra.
  split.
  - split; [exact unit_interval_0|].
    exact (proj1 (proj1 (zero_heads_division_error 8 0 false false None
                           ones_init) unit_interval_0)).
  - split; [exact Hout|].
    exact (proj2 (zero_heads_division_error 8 (3 / 2) false false None
                    ones_init) Hout).
Defined.

Lemma default_inner_dim_witness :
  SABlock_init 8 2 0 false false None ones_init =
    Ok (new_block 8 2 0 false false 4 ones_init) /\
  inner_dim (new_block 8 2 0 false false 4 ones_init) = 8%Z /\
  in_features (out_proj (new_block 8 2 0 false false 4 ones_init))
    = Z.to_nat 8 /\
  out_features (out_proj (new_block 8 2 0 false false 4 ones_init))
    = Z.to_nat 8 /\
  in_features (qkv (new_block 8 2 0 false false 4 ones_init)) = Z.to_nat 8 /\
  out_features (qkv (new_block 8 2 0 false false 4 ones_init))
    = (3 * Z.to_nat 8)%nat.
Proof.
  split; [exact (scenario_init 0 false unit_interval_0)|].
  exact (default_inner_dim 8 2 0 false false ones_init _
           (scenario_init 0 false unit_interval_0)).
Defined.

Lemma zero_head_dim_division_error_witness :
  0 <= 0 <= 1 /\ 2%Z <> 0%Z /\ (0 mod 2 = 0)%Z /\ (0 <= 0)%Z /\
  head_dim 0 2 None = 0%Z /\
  SABlock_init 0 2 0 false false None ones_init = Err ZeroDivisionError /\
  SABlock_init 8 2 0 false false (Some 0%Z) ones_init = Err ZeroDivisionError.
Proof.
  assert (H2 : 2%Z <> 0%Z) by discriminate.
  split; [exact unit_interval_0|]. split; [exact H2|].
  split; [reflexivity|]. split; [apply Z.le_refl|]. split; [reflexivity|].
  split.
  - exact (zero_head_dim_division_error 0 2 0 false false None ones_init
             unit_interval_0 H2 eq_refl (Z.le_refl 0) eq_refl).
  - apply (zero_head_dim_division_error 8 2 0 false false (Some 0%Z) ones_init
             unit_interval_0 H2 eq_refl); [discriminate|reflexivity].
Defined.

Lemma scale_squared_witness :
  SABlock_init 8 2 0 false false None ones_init =
    Ok (new_block 8 2 0 false false 4 ones_init) /\
  (0 < 2)%Z /\
  exists r, scale (new_block 8 2 0 false false 4 ones_init) = PyFloat r /\
            0 < r /\
            r * r * IZR (dim_head (new_block 8 2 0 false false 4 ones_init))
              = 1.
Proof.
  split; [exact (scenario_init 0 false unit_interval_0)|].
  split; [reflexivity|].
  exact (scale_squared 8 2 0 false false None ones_init _
           (scenario_init 0 false unit_interval_0) eq_refl).
Defined.

Lemma negative_heads_block_unusable_witness :
  exists blk,
    SABlock_init 4 (-2) 0 false false None ones_init = Ok blk /\
    (-2 < 0)%Z /\
    exists e,
      forward From_0_7_0 (train false (set_use_flash_attention false blk)) keep_all
        (zeros [1; 3; 4]%nat) = Err e /\
      ShapeMismatch e.
Proof.
  destruct negative_heads_construct as [blk H].
  exists blk. split; [exact H|]. split; [reflexivity|].
  exact (negative_heads_block_unusable From_0_7_0 4 (-2) 0 false false None ones_init
           blk false false keep_all (zeros [1; 3; 4]%nat) H eq_refl).
Defined.

Lemma training_paths_agree_witness :
  SABlock_init 8 2 (1 / 2) false false None ones_init =
    Ok (new_block 8 2 (1 / 2) false false 4 ones_init) /\
  (0 < 2)%Z /\
  shape (zeros [1; 3; 8]%nat) = [1; 3; Z.to_nat 8]%nat /\
  exists y,
    forward_output From_0_7_0
      (train true (set_use_flash_attention true
                     (new_block 8 2 (1 / 2) false false 4 ones_init)))
      keep_all (zeros [1; 3; 8]%nat) = Ok y /\
    forward_output From_0_7_0
      (train true (set_use_flash_attention false
                     (new_block 8 2 (1 / 2) false false 4 ones_init)))
      keep_all (zeros [1; 3; 8]%nat) = Ok y.
Proof.
  split; [exact (scenario_init (1 / 2) false unit_interval_half)|].
  split; [reflexivity|]. split; [reflexivity|].
  exact (training_paths_agree From_0_7_0 8 2 (1 / 2) false false None ones_init _
           keep_all (zeros [1; 3; 8]%nat) 1 3
           (scenario_init (1 / 2) false unit_interval_half) eq_refl eq_refl).
Defined.

Lemma eval_manual_ignores_rate_witness :
  SABlock_init 8 2 (1 / 2) false false None ones_init =
    Ok (new_block 8 2 (1 / 2) false false 4 ones_init) /\
  SABlock_init 8 2 0 false false None ones_init =
    Ok (new_block 8 2 0 false false 4 ones_init) /\
  (0 < 2)%Z /\
  forward_output From_0_7_0
    (eval_ (set_use_flash_attention false
              (new_block 8 2 (1 / 2) false false 4 ones_init)))
    keep_all (zeros [1; 3; 8]%nat) =
  forward_output From_0_7_0
    (eval_ (set_use_flash_attention false
              (new_block 8 2 0 false false 4 ones_init)))
    (mkRng (fun _ => false) (fun _ => false)) (zeros [1; 3; 8]%nat).
Proof.
  split; [exact (scenario_init (1 / 2) false unit_interval_half)|].
  split; [exact (scenario_init 0 false unit_interval_0)|].
  split; [reflexivity|].
  exact (eval_manual_ignores_rate From_0_7_0 8 2 (1 / 2) 0 false false None ones_init
           _ _ keep_all (mkRng (fun _ => false) (fun _ => false))
           (zeros [1; 3; 8]%nat)
           (scenario_init (1 / 2) false unit_interval_half)
           (scenario_init 0 false unit_interval_0) eq_refl).
Defined.

Lemma rate_one_training_zero_output_witness :
  SABlock_init 8 2 1 false false None ones_init =
    Ok (new_block 8 2 1 false false 4 ones_init) /\
  (0 < 2)%Z /\
  shape (zeros [1; 3; 8]%nat) = [1; 3; Z.to_nat 8]%nat /\
  forward_output From_0_7_0
    (train true (set_use_flash_attention true
                   (new_block 8 2 1 false false 4 ones_init)))
    keep_all (zeros [1; 3; 8]%nat) = Ok (zeros [1; 3; Z.to_nat 8]%nat).
Proof.
  assert (H1 : 0 <= 1 <= 1) by lra.
  split; [exact (scenario_init 1 false H1)|].
  split; [reflexivity|]. split; [reflexivity|].
  exact (rate_one_training_zero_output From_0_7_0 8 2 false false None ones_init _
           true keep_all (zeros [1; 3; 8]%nat) 1 3
           (scenario_init 1 false H1) eq_refl eq_refl).
Defined.

Lemma split_merge_round_trip_witness :
  shape (mkTensor [1; 2; 6]%nat [0; 1; 2; 3; 4; 5; 6; 7; 8; 9; 10; 11])
    = [1; 2; 3 * 2 * 1]%nat /\
  (0 < 2)%nat /\ (1 < 3)%nat /\
  exists o t m,
    Rearrange_forward From_0_7_0 (Rearrange_split 3 (Z.of_nat 2))
      (mkTensor [1; 2; 6]%nat [0; 1; 2; 3; 4; 5; 6; 7; 8; 9; 10; 11])
      = Ok o /\
    getitem o 1 = Ok t /\
    Rearrange_forward From_0_7_0 Rearrange_merge t = Ok m /\
    shape m = [1; 2; 2 * 1]%nat /\
    forall ib pos j,
      (ib < 1)%nat -> (pos < 2)%nat -> (j < 2 * 1)%nat ->
      get m [ib; pos; j] =
      get (mkTensor [1; 2; 6]%nat [0; 1; 2; 3; 4; 5; 6; 7; 8; 9; 10; 11])
        [ib; pos; (1 * (2 * 1) + j)%nat].
Proof.
  split; [reflexivity|]. split; [lia|]. split; [lia|].
  apply (split_merge_round_trip From_0_7_0
           (mkTensor [1; 2; 6]%nat [0; 1; 2; 3; 4; 5; 6; 7; 8; 9; 10; 11])
           1 2 2 1 1); [reflexivity|lia|lia].
Defined.

Lemma attention_weights_bounds_witness :
  SABlock_init 8 2 0 false false None ones_init =
    Ok (new_block 8 2 0 false false 4 ones_init) /\
  (0 < 2)%Z /\
  shape (zeros [1; 3; 8]%nat) = [1; 3; Z.to_nat 8]%nat /\
  exists q k v att,
    project_qkv From_0_7_0
      (train false (set_use_flash_attention false
                      (new_block 8 2 0 false false 4 ones_init)))
      (zeros [1; 3; 8]%nat) = Ok (q, k, v) /\
    attention_weights
      (train false (set_use_flash_attention false
                      (new_block 8 2 0 false false 4 ones_init))) q k
      = Ok att /\
    forall ib ih ix iy,
      (ib < 1)%nat -> (ih < Z.to_nat 2)%nat -> (ix < 3)%nat ->
      (iy < 3)%nat ->
      0 <= get att [ib; ih; ix; iy] <= 1.
Proof.
  split; [exact (scenario_init 0 false unit_interval_0)|].
  split; [reflexivity|]. split; [reflexivity|].
  exact (attention_weights_bounds From_0_7_0 8 2 0 false false None ones_init _ false
           (zeros [1; 3; 8]%nat) 1 3
           (scenario_init 0 false unit_interval_0) eq_refl eq_refl).
Defined.

Lemma forward_is_multi_head_attention_witness :
  SABlock_init 8 2 (1 / 2) false false None ones_init =
    Ok (new_block 8 2 (1 / 2) false false 4 ones_init) /\
  (0 < 2)%Z /\
  shape (zeros [1; 3; 8]%nat) = [1; 3; Z.to_nat 8]%nat /\
  exists y,
    forward_output From_0_7_0
      (train false (set_use_flash_attention false
                      (new_block 8 2 (1 / 2) false false 4 ones_init)))
      keep_all (zeros [1; 3; 8]%nat) = Ok y /\
    forall ib pos j,
      (ib < 1)%nat -> (pos < 3)%nat -> (j < Z.to_nat 8)%nat ->
      get y [ib; pos; j] =
      output_entry (new_block 8 2 (1 / 2) false false 4 ones_init)
        (batch_slice (zeros [1; 3; 8]%nat) ib) 3 pos j.
Proof.
  split; [exact (scenario_init (1 / 2) false unit_interval_half)|].
  split; [reflexivity|]. split; [reflexivity|].
  exact (forward_is_multi_head_attention From_0_7_0 8 2 (1 / 2) false false None
           ones_init _ false false keep_all (zeros [1; 3; 8]%nat) 1 3
           (scenario_init (1 / 2) false unit_interval_half) eq_refl eq_refl
           (or_introl (conj eq_refl eq_refl))).
Defined.

Lemma batch_elements_independent_witness :
  SABlock_init 8 2 (1 / 2) false false None ones_init =
    Ok (new_block 8 2 (1 / 2) false false 4 ones_init) /\
  (0 < 2)%Z /\
  exists y y',
    forward_output From_0_7_0
      (train false (set_use_flash_attention false
                      (new_block 8 2 (1 / 2) false false 4 ones_init)))
      keep_all
      (tabulate [1; 3; 8]%nat (fun idx => INR (nth 1 idx 0 + nth 2 idx 0)%nat))
      = Ok y /\
    forward_output From_0_7_0
      (train false (set_use_flash_attention false
                      (new_block 8 2 (1 / 2) false false 4 ones_init)))
      keep_all
      (tabulate [2; 3; 8]%nat (fun idx => INR (nth 1 idx 0 + nth 2 idx 0)%nat))
      = Ok y' /\
    forall pos j, (pos < 3)%nat -> (j < Z.to_nat 8)%nat ->
                  get y [0; pos; j]%nat = get y' [1; pos; j]%nat.
Proof.
  split; [exact (scenario_init (1 / 2) false unit_interval_half)|].
  split; [reflexivity|].
  apply (batch_elements_independent From_0_7_0 8 2 (1 / 2) false false None ones_init
           _ false false keep_all keep_all
           (tabulate [1; 3; 8]%nat
              (fun idx => INR (nth 1 idx 0 + nth 2 idx 0)%nat))
           (tabulate [2; 3; 8]%nat
              (fun idx => INR (nth 1 idx 0 + nth 2 idx 0)%nat))
           1 2 3 0 1
           (scenario_init (1 / 2) false unit_interval_half) eq_refl
           eq_refl eq_refl (or_introl (conj eq_refl eq_refl)));
    [lia|lia|].
  intros pos i Hp Hi.
  rewrite !get_tabulate by (apply in_range3_intro; simpl in *; lia).
  reflexivity.
Defined.

Lemma zero_input_gives_output_bias_witness :
  SABlock_init 8 2 0 false false None ones_init =
    Ok (new_block 8 2 0 false false 4 ones_init) /\
  (0 < 2)%Z /\
  shape (zeros [1; 3; 8]%nat) = [1; 3; Z.to_nat 8]%nat /\
  exists y,
    forward_output From_0_7_0
      (train true (set_use_flash_attention true
                     (new_block 8 2 0 false false 4 ones_init)))
      keep_all (zeros [1; 3; 8]%nat) = Ok y /\
    forall ib pos j,
      (ib < 1)%nat -> (pos < 3)%nat -> (j < Z.to_nat 8)%nat ->
      get y [ib; pos; j] = out_proj_bias ones_init [j].
Proof.
  split; [exact (scenario_init 0 false unit_interval_0)|].
  split; [reflexivity|]. split; [reflexivity|].
  apply (zero_input_gives_output_bias From_0_7_0 8 2 0 false None ones_init _ true true
           keep_all (zeros [1; 3; 8]%nat) 1 3
           (scenario_init 0 false unit_interval_0) eq_refl eq_refl
           (or_intror eq_refl)).
  intros ib pos i Hb Hp Hi. unfold zeros.
  rewrite get_tabulate by (apply in_range3_intro; simpl in *; lia).
  reflexivity.
Defined.

Lemma single_position_output_witness :
  SABlock_init 8 2 0 false false None ones_init =
    Ok (new_block 8 2 0 false false 4 ones_init) /\
  (0 < 2)%Z /\
  shape (zeros [2; 1; 8]%nat) = [2; 1; Z.to_nat 8]%nat /\
  exists y,
    forward_output From_0_7_0
      (train false (set_use_flash_attention false
                      (new_block 8 2 0 false false 4 ones_init)))
      keep_all (zeros [2; 1; 8]%nat) = Ok y /\
    forall ib j,
      (ib < 2)%nat -> (j < Z.to_nat 8)%nat ->
      get y [ib; 0%nat; j] =
      linear_entry (out_proj (new_block 8 2 0 false false 4 ones_init))
        (fun c =>
           linear_entry (qkv (new_block 8 2 0 false false 4 ones_init))
             (fun i => get (zeros [2; 1; 8]%nat) [ib; 0%nat; i])
             (2 * (heads (new_block 8 2 0 false false 4 ones_init)
                   * head_size (new_block 8 2 0 false false 4 ones_init))
              + c)%nat)
        j.
Proof.
  split; [exact (scenario_init 0 false unit_interval_0)|].
  split; [reflexivity|]. split; [reflexivity|].
  exact (single_position_output From_0_7_0 8 2 0 false false None ones_init _
           false false keep_all (zeros [2; 1; 8]%nat) 2
           (scenario_init 0 false unit_interval_0) eq_refl eq_refl
           (or_introl (conj eq_refl eq_refl))).
Defined.

Lemma position_permutation_equivariant_witness :
  SABlock_init 8 2 0 false false None ones_init =
    Ok (new_block 8 2 0 false false 4 ones_init) /\
  (0 < 2)%Z /\
  Permutation (map (fun i => (1 - i)%nat) (seq 0 2)) (seq 0 2) /\
  exists y y',
    forward_output From_0_7_0
      (train true (set_use_flash_attention true
                     (new_block 8 2 0 false false 4 ones_init)))
      keep_all
      (tabulate [1; 2; 8]%nat (fun idx => INR (nth 1 idx 0 + nth 2 idx 0)%nat))
      = Ok y /\
    forward_output From_0_7_0
      (train true (set_use_flash_attention true
                     (new_block 8 2 0 false false 4 ones_init)))
      keep_all
      (tabulate [1; 2; 8]%nat
         (fun idx => INR (1 - nth 1 idx 0 + nth 2 idx 0)%nat))
      = Ok y' /\
    forall ib pos j,
      (ib < 1)%nat -> (pos < 2)%nat -> (j < Z.to_nat 8)%nat ->
      get y' [ib; pos; j] = get y [ib; (1 - pos)%nat; j].
Proof.
  assert (Hpi : Permutation (map (fun i => (1 - i)%nat) (seq 0 2)) (seq 0 2))
    by apply perm_swap.
  split; [exact (scenario_init 0 false unit_interval_0)|].
  split; [reflexivity|]. split; [exact Hpi|].
  apply (position_permutation_equivariant From_0_7_0 8 2 0 false false None ones_init
           _ true true keep_all keep_all
           (tabulate [1; 2; 8]%nat
              (fun idx => INR (nth 1 idx 0 + nth 2 idx 0)%nat))
           (tabulate [1; 2; 8]%nat
              (fun idx => INR (1 - nth 1 idx 0 + nth 2 idx 0)%nat))
           1 2 (fun i => (1 - i)%nat)
           (scenario_init 0 false unit_interval_0) eq_refl
           eq_refl eq_refl (or_intror eq_refl) Hpi).
  intros ib pos i Hb Hp Hi. change (Z.to_nat 8) with 8%nat in Hi.
  rewrite (get_tabulate [1; 2; 8]%nat _ [ib; pos; i])
    by (apply in_range3_intro; lia).
  rewrite (get_tabulate [1; 2; 8]%nat _ [ib; (1 - pos)%nat; i])
    by (apply in_range3_intro; lia).
  reflexivity.
Defined.

Lemma forward_shape_errors_witness :
  SABlock_init 8 2 0 false false None ones_init =
    Ok (new_block 8 2 0 false false 4 ones_init) /\
  (0 < 2)%Z /\
  (length (shape (zeros [1; 3; 7]%nat)) <> 3%nat \/
   last (shape (zeros [1; 3; 7]%nat)) 0%nat <> Z.to_nat 8) /\
  (exists e,
     forward From_0_7_0
       (train false (set_use_flash_attention false
                       (new_block 8 2 0 false false 4 ones_init)))
       keep_all (zeros [1; 3; 7]%nat) = Err e /\
     ShapeMismatch e) /\
  (length (shape (zeros [3; 8]%nat)) <> 3%nat \/
   last (shape (zeros [3; 8]%nat)) 0%nat <> Z.to_nat 8) /\
  (exists e,
     forward From_0_7_0
       (train false (set_use_flash_attention false
                       (new_block 8 2 0 false false 4 ones_init)))
       keep_all (zeros [3; 8]%nat) = Err e /\
     ShapeMismatch e) /\
  (exists e,
     forward Upto_0_6_1
       (train false (set_use_flash_attention false
                       (new_block 8 2 0 false false 4 ones_init)))
       keep_all (zeros [3; 8]%nat) = Err e /\
     ShapeMismatch e) /\
  shape (zeros [1; 3; 8]%nat) = [1; 3; Z.to_nat 8]%nat /\
  exists y self',
    forward From_0_7_0
      (train false (set_use_flash_attention false
                      (new_block 8 2 0 false false 4 ones_init)))
      keep_all (zeros [1; 3; 8]%nat) = Ok (y, self').
Proof.
  assert (Hlast : length (shape (zeros [1; 3; 7]%nat)) <> 3%nat \/
                  last (shape (zeros [1; 3; 7]%nat)) 0%nat <> Z.to_nat 8)
    by (right; simpl; lia).
  assert (Hrank : length (shape (zeros [3; 8]%nat)) <> 3%nat \/
                  last (shape (zeros [3; 8]%nat)) 0%nat <> Z.to_nat 8)
    by (left; simpl; lia).
  split; [exact (scenario_init 0 false unit_interval_0)|].
  split; [reflexivity|]. split; [exact Hlast|]. split.
  { exact (proj1 (forward_shape_errors From_0_7_0 8 2 0 false false None
                    ones_init _ false false keep_all (zeros [1; 3; 7]%nat)
                    (scenario_init 0 false unit_interval_0) eq_refl) Hlast). }
  split; [exact Hrank|]. split.
  { exact (proj1 (forward_shape_errors From_0_7_0 8 2 0 false false None
                    ones_init _ false false keep_all (zeros [3; 8]%nat)
                    (scenario_init 0 false unit_interval_0) eq_refl) Hrank). }
  split.
  { exact (proj1 (forward_shape_errors Upto_0_6_1 8 2 0 false false None
                    ones_init _ false false keep_all (zeros [3; 8]%nat)
                    (scenario_init 0 false unit_interval_0) eq_refl) Hrank). }
  split; [reflexivity|].
  exact (proj2 (forward_shape_errors From_0_7_0 8 2 0 false false None
                  ones_init _ false false keep_all (zeros [1; 3; 8]%nat)
                  (scenario_init 0 false unit_interval_0) eq_refl)
           1%nat 3%nat eq_refl).
Defined.

Lemma forward_error_kinds_witness :
  SABlock_init 8 2 0 false false None ones_init =
    Ok (new_block 8 2 0 false false 4 ones_init) /\
  (0 < 2)%Z /\
  forward From_0_7_0
    (train false (set_use_flash_attention false
                    (new_block 8 2 0 false false 4 ones_init)))
    keep_all (zeros [3; 7]%nat) = Err RuntimeError /\
  forward From_0_7_0
    (train false (set_use_flash_attention false
                    (new_block 8 2 0 false false 4 ones_init)))
    keep_all (zeros [3; 8]%nat) = Err KeyError /\
  forward Upto_0_6_1
    (train false (set_use_flash_attention false
                    (new_block 8 2 0 false false 4 ones_init)))
    keep_all (zeros [3; 8]%nat) = Err EinopsError.
Proof.
  split; [exact (scenario_init 0 false unit_interval_0)|].
  split; [reflexivity|]. split; [|split].
  - apply (proj1 (forward_error_kinds From_0_7_0 8 2 0 false false None
                    ones_init _ false false keep_all (zeros [3; 7]%nat)
                    (scenario_init 0 false unit_interval_0) eq_refl)).
    right. simpl. lia.
  - apply (proj2 (forward_error_kinds From_0_7_0 8 2 0 false false None
                    ones_init _ false false keep_all (zeros [3; 8]%nat)
                    (scenario_init 0 false unit_interval_0) eq_refl));
      simpl; [discriminate|reflexivity|lia].
  - apply (proj2 (forward_error_kinds Upto_0_6_1 8 2 0 false false None
                    ones_init _ false false keep_all (zeros [3; 8]%nat)
                    (scenario_init 0 false unit_interval_0) eq_refl));
      simpl; [discriminate|reflexivity|lia].
Defined.
